(** * CrewAIProject: the record store and the request orchestrator

    A shallow embedding of [server/storage.ts] (class [MemStorage]), of the
    insert schemas of [shared/schema.ts] and of the handlers of
    [server/routes.ts] that the specification's testable properties are about,
    followed by the properties themselves.

    Conventions of the embedding.
    - A JavaScript [Map] iterates in insertion order and [set] on a present key
      keeps the key's position: it is an association list ([JsMap]).
    - [randomUUID()] and [new Date()] are inputs: the store operations take the
      identifier and the instant they would have drawn; the handlers draw them
      from two oracles carried by the [World].
    - Instants are milliseconds since the epoch ([Z]); integer columns are [Z].
    - The collaborator's answer and a request body are untyped JSON ([JsVal]);
      reading a property of [undefined] or [null], iterating a value that is
      not iterable and calling a method a value does not have throw, as they do
      in JavaScript ([Throw]).
    - The store is embedded at the types [shared/schema.ts] declares.  The
      routes pass [any]-typed payload fields to it; TypeScript erases that
      cast, the embedding writes it ([asString], [asNumber], ...). *)

From Stdlib Require Import ZArith List Ascii String Sorted Permutation Lia Bool.
From stdpp Require Import base option gmap strings.
Import ListNotations.

Local Open Scope Z_scope.
Local Open Scope string_scope.

(** ** JSON values and the JavaScript operators the code applies to them *)

Set Warnings "-register-all".

Inductive JsVal : Type :=
| JUndefined
| JNull
| JBool (b : bool)
| JNum (n : Z)
| JStr (s : string)
| JArr (items : list JsVal)
| JObj (props : list (string * JsVal)).

(** Result of an evaluation that may throw; the payload of [Throw] is the
    error's [message]. *)
Inductive Res (A : Type) : Type :=
| Ok (a : A)
| Throw (message : string).
Arguments Ok {A} a.
Arguments Throw {A} message.

(** ToBoolean. *)
Class Truthy (A : Type) := truthy : A -> bool.

#[global] Instance truthy_Z : Truthy Z := fun n => negb (n =? 0)%Z.
#[global] Instance truthy_bool : Truthy bool := fun b => b.
#[global] Instance truthy_string : Truthy string :=
  fun s => match s with EmptyString => false | String _ _ => true end.
#[global] Instance truthy_JsVal : Truthy JsVal := fun v =>
  match v with
  | JUndefined | JNull => false
  | JBool b => truthy b
  | JNum n => truthy n
  | JStr s => truthy s
  | JArr _ | JObj _ => true
  end.
(** [null] and [undefined] of a nullable column are [None]. *)
#[global] Instance truthy_option {A} `{Truthy A} : Truthy (option A) := fun o =>
  match o with Some a => truthy a | None => false end.

(** [a || b] on JSON values. *)
Definition js_or (a b : JsVal) : JsVal := if truthy a then a else b.

(** [x || null] on a nullable column. *)
Definition or_null {A} `{Truthy A} (o : option A) : option A :=
  if truthy o then o else None.

(** [x || d] where [d] has the column's type. *)
Definition or_default {A} `{Truthy A} (o : option A) (d : A) : A :=
  match o with Some a => if truthy a then a else d | None => d end.

Fixpoint assoc {V} (k : string) (l : list (string * V)) : option V :=
  match l with
  | [] => None
  | (k', v) :: l' => if String.eqb k k' then Some v else assoc k l'
  end.

(** The messages of the [TypeError]s of Node's engine. *)
Definition cannot_read (what k : string) : string :=
  "Cannot read properties of " ++ what ++ " (reading '" ++ k ++ "')".
Definition not_iterable (expr : string) : string := expr ++ " is not iterable".
Definition not_a_function (expr : string) : string := expr ++ " is not a function".

(** [v.k] for the property names the handlers read.  The keys of a JSON
    object are distinct; [length] is the one property of arrays and strings
    among them. *)
Definition js_get (k : string) (v : JsVal) : Res JsVal :=
  match v with
  | JUndefined => Throw (cannot_read "undefined" k)
  | JNull => Throw (cannot_read "null" k)
  | JObj props => Ok (match assoc k props with Some x => x | None => JUndefined end)
  | JArr items =>
      Ok (if String.eqb k "length" then JNum (Z.of_nat (List.length items)) else JUndefined)
  | JStr s =>
      Ok (if String.eqb k "length" then JNum (Z.of_nat (String.length s)) else JUndefined)
  | JBool _ | JNum _ => Ok JUndefined
  end.

(** [v?.k]. *)
Definition js_get_opt (k : string) (v : JsVal) : JsVal :=
  match js_get k v with Ok x => x | Throw _ => JUndefined end.

(** A string is iterated character by character. *)
Fixpoint chars (s : string) : list JsVal :=
  match s with
  | EmptyString => []
  | String c s' => JStr (String c EmptyString) :: chars s'
  end.

(** The values [for (const x of v)] visits, [expr] being the source text of
    [v]; arrays and strings are the only iterable JSON values. *)
Definition js_iterate (expr : string) (v : JsVal) : Res (list JsVal) :=
  match v with
  | JArr items => Ok items
  | JStr s => Ok (chars s)
  | _ => Throw (not_iterable expr)
  end.

(** [v.slice(0, n)], [expr] being the source text of [v]: arrays and strings
    have the method, [undefined] and [null] have no properties, and on any
    other JSON value [slice] is not a function. *)
Definition js_slice0 (expr : string) (n : nat) (v : JsVal) : Res JsVal :=
  match v with
  | JArr items => Ok (JArr (firstn n items))
  | JStr s => Ok (JStr (String.substring 0 n s))
  | JUndefined => Throw (cannot_read "undefined" "slice")
  | JNull => Throw (cannot_read "null" "slice")
  | _ => Throw (not_a_function (expr ++ ".slice"))
  end.

(** The erased casts from [any] to the store's column types. *)
Definition asString (v : JsVal) : string :=
  match v with JStr s => s | _ => "" end.
Definition asOptString (v : JsVal) : option string :=
  match v with JStr s => Some s | _ => None end.
Definition asNumber (v : JsVal) : option Z :=
  match v with JNum n => Some n | _ => None end.

(** ** JavaScript [Map] with string keys *)

Definition JsMap (V : Type) : Type := list (string * V).

Definition map_get {V} (k : string) (m : JsMap V) : option V := assoc k m.

Fixpoint map_set {V} (k : string) (v : V) (m : JsMap V) : JsMap V :=
  match m with
  | [] => [(k, v)]
  | (k', v') :: m' =>
      if String.eqb k k' then (k, v) :: m' else (k', v') :: map_set k v m'
  end.

(** [Array.from(m.values())]. *)
Definition map_values {V} (m : JsMap V) : list V := List.map snd m.

(** ** [Array.prototype.sort]

    The comparators of the store are consistent, and for a consistent
    comparator the language fixes the result: the stable sorted permutation.
    Insertion from the right computes it: an element is placed before the
    first element it does not have to follow. *)
Section Sort.
Context {A : Type} (cmp : A -> A -> Z).

Fixpoint sort_insert (x : A) (l : list A) : list A :=
  match l with
  | [] => [x]
  | y :: l' => if (cmp x y <=? 0)%Z then x :: l else y :: sort_insert x l'
  end.

Fixpoint js_sort (l : list A) : list A :=
  match l with
  | [] => []
  | x :: l' => sort_insert x (js_sort l')
  end.
End Sort.

(** ** The entities of [shared/schema.ts]

    [X.t] is the select type of table [X], [InsertX.t] the type its insert
    schema infers.  A nullable column is an [option]; [jsonb] is [JsVal]. *)

Module User.
Record t := mk {
  id : string; username : string; password : string;
  name : option string; email : option string; phone : option string;
  createdAt : option Z }.
End User.

Module InsertUser.
Record t := mk {
  username : string; password : string;
  name : option string; email : option string; phone : option string }.
End InsertUser.

Module Resume.
Record t := mk {
  id : string; userId : string; fileName : string; content : string;
  parsedData : JsVal; score : option Z; uploadedAt : option Z }.
End Resume.

Module InsertResume.
Record t := mk {
  userId : string; fileName : string; content : string;
  parsedData : JsVal; score : option Z }.
End InsertResume.

(** [Partial<Resume>]: [None] is a field the patch does not name. *)
Module ResumePatch.
Record t := mk {
  id : option string; userId : option string; fileName : option string;
  content : option string; parsedData : option JsVal;
  score : option (option Z); uploadedAt : option (option Z) }.
End ResumePatch.

Module Skill.
Record t := mk {
  id : string; userId : string; name : string; level : string;
  category : string; isInDemand : option bool; addedAt : option Z }.
End Skill.

Module InsertSkill.
Record t := mk {
  userId : string; name : string; level : string; category : string;
  isInDemand : option bool }.
End InsertSkill.

Module Job.
Record t := mk {
  id : string; title : string; company : string; location : string;
  salary : option string; description : string; requirements : JsVal;
  matchScore : option Z; postedAt : option string; applyUrl : option string;
  fetchedAt : option Z }.
End Job.

Module InsertJob.
Record t := mk {
  title : string; company : string; location : string;
  salary : option string; description : string; requirements : JsVal;
  matchScore : option Z; postedAt : option string; applyUrl : option string }.
End InsertJob.

Module CareerPath.
Record t := mk {
  id : string; userId : string; title : string; description : string;
  requiredSkills : JsVal; timeline : option string;
  salaryRange : option string; icon : option string; createdAt : option Z }.
End CareerPath.

Module InsertCareerPath.
Record t := mk {
  userId : string; title : string; description : string;
  requiredSkills : JsVal; timeline : option string;
  salaryRange : option string; icon : option string }.
End InsertCareerPath.

Module Course.
Record t := mk {
  id : string; title : string; description : string; provider : string;
  duration : option string; level : option string; rating : option string;
  imageUrl : option string; courseUrl : string; isFree : option bool;
  category : option string; addedAt : option Z }.
End Course.

Module InsertCourse.
Record t := mk {
  title : string; description : string; provider : string;
  duration : option string; level : option string; rating : option string;
  imageUrl : option string; courseUrl : string; isFree : option bool;
  category : option string }.
End InsertCourse.

Module Activity.
Record t := mk {
  id : string; userId : string; type : string; description : string;
  status : string; createdAt : option Z }.
End Activity.

Module InsertActivity.
Record t := mk {
  userId : string; type : string; description : string; status : string }.
End InsertActivity.

(** ** [MemStorage] *)

Record MemStorage := mkStorage {
  users : JsMap User.t;
  resumes : JsMap Resume.t;
  skills : JsMap Skill.t;
  jobs : JsMap Job.t;
  careerPaths : JsMap CareerPath.t;
  courses : JsMap Course.t;
  activities : JsMap Activity.t }.

Definition set_users (f : JsMap User.t -> JsMap User.t) (st : MemStorage) :=
  mkStorage (f (users st)) (resumes st) (skills st) (jobs st)
            (careerPaths st) (courses st) (activities st).
Definition set_resumes (f : JsMap Resume.t -> JsMap Resume.t) (st : MemStorage) :=
  mkStorage (users st) (f (resumes st)) (skills st) (jobs st)
            (careerPaths st) (courses st) (activities st).
Definition set_skills (f : JsMap Skill.t -> JsMap Skill.t) (st : MemStorage) :=
  mkStorage (users st) (resumes st) (f (skills st)) (jobs st)
            (careerPaths st) (courses st) (activities st).
Definition set_jobs (f : JsMap Job.t -> JsMap Job.t) (st : MemStorage) :=
  mkStorage (users st) (resumes st) (skills st) (f (jobs st))
            (careerPaths st) (courses st) (activities st).
Definition set_careerPaths (f : JsMap CareerPath.t -> JsMap CareerPath.t) (st : MemStorage) :=
  mkStorage (users st) (resumes st) (skills st) (jobs st)
            (f (careerPaths st)) (courses st) (activities st).
Definition set_courses (f : JsMap Course.t -> JsMap Course.t) (st : MemStorage) :=
  mkStorage (users st) (resumes st) (skills st) (jobs st)
            (careerPaths st) (f (courses st)) (activities st).
Definition set_activities (f : JsMap Activity.t -> JsMap Activity.t) (st : MemStorage) :=
  mkStorage (users st) (resumes st) (skills st) (jobs st)
            (careerPaths st) (courses st) (f (activities st)).

(** [s.includes(sub)]. *)
Fixpoint includes (sub s : string) : bool :=
  if String.prefix sub s then true
  else match s with
       | EmptyString => false
       | String _ s' => includes sub s'
       end.

(** [new Date(d).getTime()]; [new Date(null)] is the epoch. *)
Definition getTime (d : option Z) : Z :=
  match d with Some t => t | None => 0 end.

Module JobFilters.
Record t := mk { location : option string; experience : option string }.
End JobFilters.

(** The sample skills and courses of [initializeSampleData]. *)
Definition sampleSkills : list (string * string * string) :=
  [ ("JavaScript", "expert", "Programming");
    ("Python", "advanced", "Programming");
    ("React", "intermediate", "Frontend");
    ("Node.js", "beginner", "Backend") ].

Definition sampleCourses : list InsertCourse.t :=
  [ InsertCourse.mk "Complete Web Development Bootcamp"
      "Learn HTML, CSS, JavaScript, React, Node.js and build real-world projects."
      "Coursera" (Some "40 hours") (Some "Beginner") (Some "4.8 (12.5k)")
      (Some "https://images.unsplash.com/photo-1555066931-4365d14bab8c?ixlib=rb-4.0.3&auto=format&fit=crop&w=800&h=200")
      "https://coursera.org/web-development" None (Some "Programming");
    InsertCourse.mk "AWS Cloud Practitioner"
      "Learn cloud fundamentals and prepare for AWS certification."
      "edX" (Some "20 hours") (Some "Intermediate") (Some "4.6 (8.2k)")
      (Some "https://images.unsplash.com/photo-1451187580459-43490279c0fa?ixlib=rb-4.0.3&auto=format&fit=crop&w=800&h=200")
      "https://edx.org/aws-cloud" None (Some "Cloud") ].

Definition defaultUser (now : Z) : User.t :=
  User.mk "default-user" "alex" "password" (Some "Alex Rodriguez")
          (Some "alex.rodriguez@email.com") (Some "+1 (555) 123-4567") (Some now).

Definition emptyStorage : MemStorage := mkStorage [] [] [] [] [] [] [].

(** Adding the sample skills: the [k]-th [randomUUID()] of the constructor is
    [uuid k], its [k]-th [new Date()] is [date k]. *)
Fixpoint addSampleSkills (uuid : nat -> string) (date : nat -> Z) (k : nat)
    (l : list (string * string * string)) (m : JsMap Skill.t) : JsMap Skill.t :=
  match l with
  | [] => m
  | (n, lv, cat) :: l' =>
      addSampleSkills uuid date (S k) l'
        (map_set (uuid k)
           (Skill.mk (uuid k) "default-user" n lv cat (Some true) (Some (date (S k)))) m)
  end.

Fixpoint addSampleCourses (uuid : nat -> string) (date : nat -> Z) (k : nat)
    (l : list InsertCourse.t) (m : JsMap Course.t) : JsMap Course.t :=
  match l with
  | [] => m
  | c :: l' =>
      addSampleCourses uuid date (S k) l'
        (map_set (uuid k)
           (Course.mk (uuid k) (InsertCourse.title c) (InsertCourse.description c)
              (InsertCourse.provider c) (InsertCourse.duration c)
              (InsertCourse.level c) (InsertCourse.rating c)
              (InsertCourse.imageUrl c) (InsertCourse.courseUrl c) (Some true)
              (InsertCourse.category c) (Some (date (S k)))) m)
  end.

(** [new MemStorage()]. *)
Definition initializeSampleData (uuid : nat -> string) (date : nat -> Z) : MemStorage :=
  let u := defaultUser (date 0%nat) in
  mkStorage (map_set (User.id u) u [])
            []
            (addSampleSkills uuid date 0 sampleSkills [])
            []
            []
            (addSampleCourses uuid date 4 sampleCourses [])
            [].

Section StoreOperations.
Variable st : MemStorage.

Definition getUser (id : string) : option User.t := map_get id (users st).

Definition getUserByUsername (username : string) : option User.t :=
  List.find (fun u => String.eqb (User.username u) username) (map_values (users st)).

Definition createUser (id : string) (now : Z) (i : InsertUser.t) : MemStorage * User.t :=
  let user := User.mk id (InsertUser.username i) (InsertUser.password i)
                (or_null (InsertUser.name i)) (or_null (InsertUser.email i))
                (or_null (InsertUser.phone i)) (Some now) in
  (set_users (map_set id user) st, user).

Definition createResume (id : string) (now : Z) (i : InsertResume.t) : MemStorage * Resume.t :=
  let resume := Resume.mk id (InsertResume.userId i) (InsertResume.fileName i)
                  (InsertResume.content i)
                  (js_or (InsertResume.parsedData i) JNull)
                  (or_null (InsertResume.score i))
                  (Some now) in
  (set_resumes (map_set id resume) st, resume).

Definition getResumeByUserId (userId : string) : option Resume.t :=
  List.find (fun r => String.eqb (Resume.userId r) userId) (map_values (resumes st)).

(** [{ ...resume, ...data }]. *)
Definition mergeResume (resume : Resume.t) (data : ResumePatch.t) : Resume.t :=
  Resume.mk
    (default (Resume.id resume) (ResumePatch.id data))
    (default (Resume.userId resume) (ResumePatch.userId data))
    (default (Resume.fileName resume) (ResumePatch.fileName data))
    (default (Resume.content resume) (ResumePatch.content data))
    (default (Resume.parsedData resume) (ResumePatch.parsedData data))
    (default (Resume.score resume) (ResumePatch.score data))
    (default (Resume.uploadedAt resume) (ResumePatch.uploadedAt data)).

Definition updateResume (id : string) (data : ResumePatch.t) : MemStorage * option Resume.t :=
  match map_get id (resumes st) with
  | None => (st, None)
  | Some resume =>
      let updated := mergeResume resume data in
      (set_resumes (map_set id updated) st, Some updated)
  end.

Definition getSkillsByUserId (userId : string) : list Skill.t :=
  List.filter (fun s => String.eqb (Skill.userId s) userId) (map_values (skills st)).

Definition createSkill (id : string) (now : Z) (i : InsertSkill.t) : MemStorage * Skill.t :=
  let skill := Skill.mk id (InsertSkill.userId i) (InsertSkill.name i)
                 (InsertSkill.level i) (InsertSkill.category i)
                 (or_null (InsertSkill.isInDemand i)) (Some now) in
  (set_skills (map_set id skill) st, skill).


(** The comparator of both job listings. *)
Definition byMatchScore (a b : Job.t) : Z :=
  or_default (Job.matchScore b) 0 - or_default (Job.matchScore a) 0.

Definition getJobs (filters : option JobFilters.t) : list Job.t :=
  let jobs0 := map_values (jobs st) in
  let jobs1 :=
    match filters with
    | Some f =>
        match JobFilters.location f with
        | Some loc =>
            if truthy loc && negb (String.eqb loc "All Locations")
            then List.filter (fun job => includes loc (Job.location job)) jobs0
            else jobs0
        | None => jobs0
        end
    | None => jobs0
    end in
  js_sort byMatchScore jobs1.

Definition createJob (id : string) (now : Z) (i : InsertJob.t) : MemStorage * Job.t :=
  let job := Job.mk id (InsertJob.title i) (InsertJob.company i)
               (InsertJob.location i) (or_null (InsertJob.salary i))
               (InsertJob.description i)
               (js_or (InsertJob.requirements i) JNull)
               (or_null (InsertJob.matchScore i))
               (or_null (InsertJob.postedAt i))
               (or_null (InsertJob.applyUrl i)) (Some now) in
  (set_jobs (map_set id job) st, job).

Definition getJobsByMatchScore (minScore : Z) : list Job.t :=
  js_sort byMatchScore
    (List.filter (fun job => (or_default (Job.matchScore job) 0 >=? minScore)%Z)
                 (map_values (jobs st))).

Definition getCareerPathsByUserId (userId : string) : list CareerPath.t :=
  List.filter (fun p => String.eqb (CareerPath.userId p) userId)
              (map_values (careerPaths st)).

Definition createCareerPath (id : string) (now : Z) (i : InsertCareerPath.t)
  : MemStorage * CareerPath.t :=
  let path := CareerPath.mk id (InsertCareerPath.userId i) (InsertCareerPath.title i)
                (InsertCareerPath.description i)
                (js_or (InsertCareerPath.requiredSkills i) JNull)
                (or_null (InsertCareerPath.timeline i))
                (or_null (InsertCareerPath.salaryRange i))
                (or_null (InsertCareerPath.icon i)) (Some now) in
  (set_careerPaths (map_set id path) st, path).

Definition getCourses (category : option string) : list Course.t :=
  let courses0 := map_values (courses st) in
  match category with
  | Some cat =>
      if truthy cat && negb (String.eqb cat "All Courses")
      then List.filter (fun c => match Course.category c with
                                 | Some c' => String.eqb c' cat
                                 | None => false
                                 end) courses0
      else courses0
  | None => courses0
  end.

Definition createCourse (id : string) (now : Z) (i : InsertCourse.t) : MemStorage * Course.t :=
  let course := Course.mk id (InsertCourse.title i) (InsertCourse.description i)
                  (InsertCourse.provider i) (or_null (InsertCourse.duration i))
                  (or_null (InsertCourse.level i)) (or_null (InsertCourse.rating i))
                  (or_null (InsertCourse.imageUrl i)) (InsertCourse.courseUrl i)
                  (or_null (InsertCourse.isFree i)) (or_null (InsertCourse.category i))
                  (Some now) in
  (set_courses (map_set id course) st, course).

(** The comparator of the activity listing. *)
Definition byCreatedAt (a b : Activity.t) : Z :=
  getTime (Activity.createdAt b) - getTime (Activity.createdAt a).

Definition getActivitiesByUserId (userId : string) : list Activity.t :=
  js_sort byCreatedAt
    (List.filter (fun a => String.eqb (Activity.userId a) userId)
                 (map_values (activities st))).

Definition createActivity (id : string) (now : Z) (i : InsertActivity.t)
  : MemStorage * Activity.t :=
  let activity := Activity.mk id (InsertActivity.userId i) (InsertActivity.type i)
                    (InsertActivity.description i) (InsertActivity.status i)
                    (Some now) in
  (set_activities (map_set id activity) st, activity).
End StoreOperations.

(** ** The world a handler runs in *)

Module Body.
(** The JSON bodies the handlers send. *)
Inductive t :=
| Error (error : string)
| Stats (resumeScore : Z) (skillMatches : Z) (jobRecommendations : Z)
| Upload (success : bool) (resume : Resume.t) (message : JsVal) (extractedSkills : JsVal)
| Jobs (success : bool) (jobs : JsVal) (source : JsVal) (message : JsVal)
| Created (activity : Activity.t).
End Body.

Record Response := mkResponse { status : Z; body : Body.t }.

(** [req.file] as multer leaves it. *)
Record MulterFile := mkFile { path : string; originalname : string; mimetype : string }.

(** What [axios] does with one call: it resolves with [response.data], or it
    rejects (network error, non-2xx status, timeout of 30 s) with an error
    that has a [message]. *)
Inductive AxiosOutcome :=
| Resolved (data : JsVal)
| Rejected (message : string).

Record World := mkWorld {
  storage : MemStorage;
  disk : gmap string string;       (* the files under uploads/ *)
  sent : option Response;          (* what [res] has sent *)
  randomUUID : nat -> string;      (* the [k]-th [randomUUID()] *)
  Date_now : nat -> Z;             (* the [k]-th [new Date()] *)
  uuids : nat;                     (* calls of [randomUUID()] so far *)
  dates : nat }.                   (* calls of [new Date()] so far *)

Definition M (A : Type) : Type := World -> Res A * World.

Definition ret {A} (a : A) : M A := fun w => (Ok a, w).

Definition bind {A B} (c : M A) (k : A -> M B) : M B := fun w =>
  match c w with
  | (Ok a, w') => k a w'
  | (Throw e, w') => (Throw e, w')
  end.

Notation "x <- c ;; k" := (bind c (fun x => k))
  (at level 100, c at next level, right associativity).
Notation "c ;;; k" := (bind c (fun _ => k))
  (at level 100, right associativity).

(** [try { body } catch (error) { handler(error.message) }]. *)
Definition try_catch {A} (body : M A) (handler : string -> M A) : M A := fun w =>
  match body w with
  | (Ok a, w') => (Ok a, w')
  | (Throw e, w') => handler e w'
  end.

Definition lift {A} (r : Res A) : M A := fun w => (r, w).

(** A store creation: draws the identifier and the instant. *)
Definition create {I X} (op : MemStorage -> string -> Z -> I -> MemStorage * X) (i : I) : M X :=
  fun w =>
    let '(st', x) := op (storage w) (randomUUID w (uuids w)) (Date_now w (dates w)) i in
    (Ok x, mkWorld st' (disk w) (sent w) (randomUUID w) (Date_now w)
                   (S (uuids w)) (S (dates w))).

Definition query {X} (op : MemStorage -> X) : M X := fun w => (Ok (op (storage w)), w).

(** [res.status(s).json(b)]; a second send throws. *)
Definition send (s : Z) (b : Body.t) : M unit := fun w =>
  match sent w with
  | None => (Ok tt, mkWorld (storage w) (disk w) (Some (mkResponse s b))
                            (randomUUID w) (Date_now w) (uuids w) (dates w))
  | Some _ => (Throw "ERR_HTTP_HEADERS_SENT", w)
  end.

(** [fs.promises.readFile(p, 'utf-8')]. *)
Definition readFile (p : string) : M string := fun w =>
  match disk w !! p with
  | Some text => (Ok text, w)
  | None => (Throw "ENOENT", w)
  end.

(** [fs.unlinkSync(p)]. *)
Definition unlinkSync (p : string) : M unit := fun w =>
  match disk w !! p with
  | Some _ => (Ok tt, mkWorld (storage w) (delete p (disk w)) (sent w)
                              (randomUUID w) (Date_now w) (uuids w) (dates w))
  | None => (Throw "ENOENT", w)
  end.

(** [for (const x of l) { f(x) }]. *)
Fixpoint for_of {A} (l : list A) (f : A -> M unit) : M unit :=
  match l with
  | [] => ret tt
  | x :: l' => f x ;;; for_of l' f
  end.

(** ** [server/routes.ts] *)

Definition defaultUserId : string := "default-user".

(** [callPythonService]: a rejected call becomes a failure payload. *)
Definition callPythonService (axios : AxiosOutcome) : JsVal :=
  match axios with
  | Resolved data => data
  | Rejected message => JObj [("success", JBool false); ("error", JStr message)]
  end.

Definition jsStrings (l : list string) : JsVal := JArr (List.map JStr l).

Definition fallbackJob (id title company description : string)
    (requirements : list string) (salary applyUrl postedAt : string) (matchScore : Z) : JsVal :=
  JObj [("id", JStr id); ("title", JStr title); ("company", JStr company);
        ("location", JStr "Remote"); ("description", JStr description);
        ("requirements", jsStrings requirements); ("salary", JStr salary);
        ("applyUrl", JStr applyUrl); ("postedAt", JStr postedAt);
        ("matchScore", JNum matchScore)].

Definition fallbackJobs : JsVal :=
  JArr [ fallbackJob "job-1" "Full Stack Developer" "TechCorp"
           "Looking for a full stack developer with React, Node.js, and Python experience."
           ["React"; "Node.js"; "Python"; "SQL"; "Git"]
           "$80,000 - $120,000" "https://example.com/apply" "2025-01-20" 85;
         fallbackJob "job-2" "Frontend Developer" "WebStudio"
           "Frontend developer needed for modern React applications with TypeScript."
           ["React"; "TypeScript"; "HTML"; "CSS"; "JavaScript"]
           "$70,000 - $100,000" "https://example.com/apply2" "2025-01-19" 78;
         fallbackJob "job-3" "Python Developer" "DataTech"
           "Python developer for data processing and web applications."
           ["Python"; "Django"; "PostgreSQL"; "Docker"]
           "$75,000 - $110,000" "https://example.com/apply3" "2025-01-18" 72 ].

(** [GET /api/dashboard/stats]. *)
Definition dashboardStats : M unit :=
  try_catch
    (resume <- query (fun st => getResumeByUserId st defaultUserId) ;;
     skills <- query (fun st => getSkillsByUserId st defaultUserId) ;;
     jobs <- query (fun st => getJobs st None) ;;
     let resumeScore :=
       match resume with Some r => or_default (Resume.score r) 0 | None => 0 end in
     let skillMatches := Z.of_nat (List.length skills) in
     let jobRecommendations :=
       let n := Z.of_nat (List.length jobs) in if truthy n then n else 3 in
     send 200 (Body.Stats resumeScore skillMatches jobRecommendations))
    (fun _ => send 500 (Body.Error "Failed to fetch dashboard stats")).

(** The parsed data of the fallback branch of the upload. *)
Definition fallbackData : JsVal :=
  JObj [("name", JStr "User"); ("email", JStr ""); ("mobile_number", JStr "");
        ("skills", jsStrings ["JavaScript"; "HTML"; "CSS"]);
        ("education", JArr []); ("experience", JArr []);
        ("total_experience", JNum 0)].

Definition uploadActivity (file : MulterFile) : InsertActivity.t :=
  InsertActivity.mk defaultUserId "resume_upload"
    ("Uploaded and analyzed resume: " ++ originalname file) "completed".

(** One skill record of the upload's success branch; the inner [try] swallows
    what [createSkill] might throw. *)
Definition storeSkill (skillName : JsVal) : M unit :=
  try_catch
    (create createSkill
       (InsertSkill.mk defaultUserId (asString skillName)
                       "intermediate" "technical" (Some true)) ;;;
     ret tt)
    (fun _ => ret tt).

(** [POST /api/resume/upload], after multer: [file] is [req.file] and [axios]
    what the call to [/parse-resume] does.  Opening the read stream does not
    throw. *)
Definition uploadResume (file : option MulterFile) (axios : AxiosOutcome) : M unit :=
  try_catch
    match file with
    | None => send 400 (Body.Error "No file uploaded")
    | Some f =>
        let pythonResponse := callPythonService axios in
        success <- lift (js_get "success" pythonResponse) ;;
        (if negb (truthy success) then
           content <- readFile (path f) ;;
           resume <- create createResume
                       (InsertResume.mk defaultUserId (originalname f) content
                                        fallbackData (Some 65)) ;;
           fallbackSkills <- lift (js_get "skills" fallbackData) ;;
           count <- lift (js_get "length" fallbackSkills) ;;
           send 200 (Body.Upload true resume
                       (JStr "Resume uploaded (basic parsing - Python service unavailable)")
                       count)
         else
           content <- lift (js_get "content" pythonResponse) ;;
           parsedData <- lift (js_get "parsedData" pythonResponse) ;;
           score <- lift (js_get "score" pythonResponse) ;;
           resume <- create createResume
                       (InsertResume.mk defaultUserId (originalname f) (asString content)
                                        parsedData (asNumber score)) ;;
           let extractedSkills := js_or (js_get_opt "skills" parsedData) (JArr []) in
           skillNames <- lift (js_iterate "extractedSkills" extractedSkills) ;;
           for_of skillNames storeSkill ;;;
           message <- lift (js_get "message" pythonResponse) ;;
           count <- lift (js_get "length" extractedSkills) ;;
           send 200 (Body.Upload true resume message count)) ;;;
        create createActivity (uploadActivity f) ;;;
        unlinkSync (path f)
    end
    (fun message =>
       send 500 (Body.Error (if truthy message then message else "Failed to process resume"))).

(** One stored job of [GET /api/jobs]: reading a property of a [null] entry
    throws inside the inner [try]. *)
Definition storeJob (jobData : JsVal) : M unit :=
  try_catch
    (title <- lift (js_get "title" jobData) ;;
     description <- lift (js_get "description" jobData) ;;
     location <- lift (js_get "location" jobData) ;;
     company <- lift (js_get "company" jobData) ;;
     salary <- lift (js_get "salary" jobData) ;;
     requirements <- lift (js_get "requirements" jobData) ;;
     matchScore <- lift (js_get "matchScore" jobData) ;;
     postedAt <- lift (js_get "postedAt" jobData) ;;
     applyUrl <- lift (js_get "applyUrl" jobData) ;;
     create createJob
       (InsertJob.mk (asString title) (asString company) (asString location)
                     (asOptString salary) (asString description) requirements
                     (asNumber matchScore) (asOptString postedAt) (asOptString applyUrl)) ;;;
     ret tt)
    (fun _ => ret tt).

Definition fallbackReply (message : string) : M unit :=
  send 200 (Body.Jobs true fallbackJobs (JStr "fallback_data") (JStr message)).

(** [GET /api/jobs]; [axios] is what the call to [/jobs?skills=...] does. *)
Definition getApiJobs (axios : AxiosOutcome) : M unit :=
  try_catch
    (skills <- query (fun st => getSkillsByUserId st defaultUserId) ;;
     let pythonResponse := callPythonService axios in
     success <- lift (js_get "success" pythonResponse) ;;
     if truthy success then
       jobs <- lift (js_get "jobs" pythonResponse) ;;
       firstTen <- lift (js_slice0 "pythonResponse.jobs" 10 jobs) ;;
       entries <- lift (js_iterate "pythonResponse.jobs.slice(...)" firstTen) ;;
       for_of entries storeJob ;;;
       source <- lift (js_get "source" pythonResponse) ;;
       message <- lift (js_get "message" pythonResponse) ;;
       send 200 (Body.Jobs true jobs source message)
     else
       fallbackReply "Using fallback data - External job API unavailable")
    (fun _ => fallbackReply "Error occurred - Using fallback data").

(** [insertActivitySchema.safeParse]: the schema that drizzle-zod derives from
    the [activities] table without [id] and [createdAt] is an object schema
    with four required string fields; unknown keys are stripped. *)
Definition insertActivitySchema_safeParse (body : JsVal) : option InsertActivity.t :=
  match body with
  | JObj props =>
      match assoc "userId" props, assoc "type" props,
            assoc "description" props, assoc "status" props with
      | Some (JStr u), Some (JStr t), Some (JStr d), Some (JStr s) =>
          Some (InsertActivity.mk u t d s)
      | _, _, _, _ => None
      end
  | _ => None
  end.

(** [POST /api/activities]. *)
Definition postActivities (body : JsVal) : M unit :=
  try_catch
    match insertActivitySchema_safeParse body with
    | None => send 400 (Body.Error "Invalid activity data")
    | Some data =>
        activity <- create createActivity
                      (InsertActivity.mk defaultUserId (InsertActivity.type data)
                         (InsertActivity.description data) (InsertActivity.status data)) ;;
        send 200 (Body.Created activity)
    end
    (fun _ => send 500 (Body.Error "Failed to create activity")).

(** A request arrives with nothing sent yet; the handler's effect is the world
    it leaves. *)
Definition fresh (w : World) : World :=
  mkWorld (storage w) (disk w) None (randomUUID w) (Date_now w) (uuids w) (dates w).

Definition handle (h : M unit) (w : World) : World := snd (h (fresh w)).

(** ** The handlers that answer in their last step

    [Body.t] lists the bodies of the four handlers above.  The handlers below
    end every path with [res.json] (or [res.status(..).json]); the embedding
    returns that answer as the handler's result. *)

Inductive Reply (X : Type) : Type :=
| Json (status : Z) (body : X)
| Failure (status : Z) (error : string).
Arguments Json {X} status body.
Arguments Failure {X} status error.

(** The answer a request gets, and the world it leaves. *)
Definition answer {X} (h : M (Reply X)) (w : World) : Res (Reply X) := fst (h (fresh w)).
Definition after {X} (h : M X) (w : World) : World := snd (h (fresh w)).

(** [GET /api/activities]. *)
Definition getApiActivities : M (Reply (list Activity.t)) :=
  try_catch
    (activities <- query (fun st => getActivitiesByUserId st defaultUserId) ;;
     ret (Json 200 activities))
    (fun _ => ret (Failure 500 "Failed to fetch activities")).

(** [GET /api/resume]. *)
Definition getApiResume : M (Reply Resume.t) :=
  try_catch
    (resume <- query (fun st => getResumeByUserId st defaultUserId) ;;
     match resume with
     | None => ret (Failure 404 "No resume found")
     | Some r => ret (Json 200 r)
     end)
    (fun _ => ret (Failure 500 "Failed to fetch resume")).

(** The reference list of [GET /api/skills]: name, level, category; all are
    in demand. *)
Definition demandSkills : list (string * string * string) :=
  [ ("Machine Learning", "missing", "Data Science");
    ("Docker", "missing", "DevOps");
    ("AWS", "missing", "Cloud");
    ("GraphQL", "developing", "Backend");
    ("Kubernetes", "missing", "DevOps");
    ("TypeScript", "developing", "Frontend") ].

Module SkillsBody.
Record t := mk {
  userSkills : list Skill.t;
  demandSkills : list (string * string * string);
  totalSkills : Z;
  demandSkillsCount : Z }.
End SkillsBody.


(** The courses [GET /api/courses] adds to a store without courses. *)
Definition fallbackCourses : list InsertCourse.t :=
  [ InsertCourse.mk "Complete React Developer Course"
      "Learn React.js from basics to advanced concepts with hands-on projects"
      "freeCodeCamp" (Some "20 hours") (Some "Beginner") (Some "4.8") None
      "https://www.freecodecamp.org/learn/front-end-development-libraries/"
      (Some true) (Some "Frontend");
    InsertCourse.mk "Python for Everybody Specialization"
      "Learn to program and analyze data with Python"
      "Coursera" (Some "8 months") (Some "Beginner") (Some "4.8") None
      "https://www.coursera.org/specializations/python"
      (Some true) (Some "Programming");
    InsertCourse.mk "CS50's Introduction to Computer Science"
      "Harvard's introduction to computer science and programming"
      "edX" (Some "12 weeks") (Some "Beginner") (Some "4.9") None
      "https://www.edx.org/course/cs50s-introduction-to-computer-science"
      (Some true) (Some "Computer Science") ].

Definition storeCourse (courseData : InsertCourse.t) : M unit :=
  try_catch (create createCourse courseData ;;; ret tt) (fun _ => ret tt).

(** [GET /api/courses]. *)
Definition getApiCourses : M (Reply (list Course.t)) :=
  try_catch
    (courses <- query (fun st => getCourses st None) ;;
     if (Z.of_nat (List.length courses) =? 0)%Z then
       for_of fallbackCourses storeCourse ;;;
       newCourses <- query (fun st => getCourses st None) ;;
       ret (Json 200 newCourses)
     else ret (Json 200 courses))
    (fun _ => ret (Failure 500 "Failed to fetch courses")).

(** [names.filter(s => required.includes(s))] and
    [required.filter(s => !names.includes(s))]. *)
Definition contains (l : list string) (s : string) : bool := existsb (String.eqb s) l.
Definition matchingSkills (skillNames required : list string) : list string :=
  List.filter (contains required) skillNames.
Definition missingSkills (skillNames required : list string) : list string :=
  List.filter (fun s => negb (contains skillNames s)) required.

Definition fallbackPath (id title description : string) (requiredSkills : list string)
    (matchPercentage : Z) (timeline salaryRange icon : string)
    (skillNames : list string) : JsVal :=
  JObj [("id", JStr id); ("title", JStr title); ("description", JStr description);
        ("requiredSkills", jsStrings requiredSkills);
        ("matchingSkills", jsStrings (matchingSkills skillNames requiredSkills));
        ("missingSkills", jsStrings (missingSkills skillNames requiredSkills));
        ("matchPercentage", JNum matchPercentage);
        ("timeline", JStr timeline); ("salaryRange", JStr salaryRange);
        ("icon", JStr icon)].

Definition frontendSkills : list string :=
  ["HTML"; "CSS"; "JavaScript"; "React"; "TypeScript"].
Definition fullstackSkills : list string :=
  ["React"; "Node.js"; "Python"; "SQL"; "Git"; "Docker"].

Definition fallbackPaths (skillNames : list string) : JsVal :=
  JArr [ fallbackPath "path-frontend" "Frontend Developer"
           "Specialize in user interface development with modern frameworks"
           frontendSkills 60 "6-12 months" "$60,000 - $120,000" "monitor" skillNames;
         fallbackPath "path-fullstack" "Full Stack Developer"
           "Master both frontend and backend technologies"
           fullstackSkills 45 "12-18 months" "$80,000 - $140,000" "layers" skillNames ].

(** One stored career path of [GET /api/career-paths]. *)
Definition storePath (pathData : JsVal) : M unit :=
  try_catch
    (title <- lift (js_get "title" pathData) ;;
     description <- lift (js_get "description" pathData) ;;
     requiredSkills <- lift (js_get "requiredSkills" pathData) ;;
     timeline <- lift (js_get "timeline" pathData) ;;
     salaryRange <- lift (js_get "salaryRange" pathData) ;;
     icon <- lift (js_get "icon" pathData) ;;
     create createCareerPath
       (InsertCareerPath.mk defaultUserId (asString title) (asString description)
                            requiredSkills (asOptString timeline)
                            (asOptString salaryRange) (asOptString icon)) ;;;
     ret tt)
    (fun _ => ret tt).

(** [GET /api/career-paths]; [axios] is what the call to
    [/career-paths?skills=...] does. *)
Definition getApiCareerPaths (axios : AxiosOutcome) : M (Reply JsVal) :=
  try_catch
    (skills <- query (fun st => getSkillsByUserId st defaultUserId) ;;
     let skillNames := List.map Skill.name skills in
     let pythonResponse := callPythonService axios in
     success <- lift (js_get "success" pythonResponse) ;;
     if truthy success then
       paths <- lift (js_get "paths" pythonResponse) ;;
       entries <- lift (js_iterate "pythonResponse.paths" paths) ;;
       for_of entries storePath ;;;
       ret (Json 200 paths)
     else ret (Json 200 (fallbackPaths skillNames)))
    (fun _ => ret (Failure 500 "Failed to fetch career paths")).

(** * Vocabulary of the properties *)

(** ** Orders and keys *)

(** Descending order by an integer key. *)
Definition descending {A} (key : A -> Z) (l : list A) : Prop :=
  StronglySorted (fun a b => key b <= key a) l.

(** The match score with an absent score read as 0. *)
Definition scoreOrZero (j : Job.t) : Z := default 0 (Job.matchScore j).

(** The instant an activity is sorted by. *)
Definition createdAtTime (a : Activity.t) : Z := getTime (Activity.createdAt a).

Definition ownedBy (userId : string) (a : Activity.t) : bool :=
  String.eqb (Activity.userId a) userId.

(** ** Fields of a resume *)

(** The fields of a resume, and a field's value whatever its type. *)
Inductive ResumeField :=
  FId | FUserId | FFileName | FContent | FParsedData | FScore | FUploadedAt.

Inductive Cell :=
| CText (s : string)
| CJson (v : JsVal)
| CNumber (n : option Z)
| CDate (d : option Z).

Definition resumeField (f : ResumeField) (r : Resume.t) : Cell :=
  match f with
  | FId => CText (Resume.id r)
  | FUserId => CText (Resume.userId r)
  | FFileName => CText (Resume.fileName r)
  | FContent => CText (Resume.content r)
  | FParsedData => CJson (Resume.parsedData r)
  | FScore => CNumber (Resume.score r)
  | FUploadedAt => CDate (Resume.uploadedAt r)
  end.

(** The value a patch gives a field, [None] when it does not name it. *)
Definition patchField (f : ResumeField) (p : ResumePatch.t) : option Cell :=
  match f with
  | FId => CText <$> ResumePatch.id p
  | FUserId => CText <$> ResumePatch.userId p
  | FFileName => CText <$> ResumePatch.fileName p
  | FContent => CText <$> ResumePatch.content p
  | FParsedData => CJson <$> ResumePatch.parsedData p
  | FScore => CNumber <$> ResumePatch.score p
  | FUploadedAt => CDate <$> ResumePatch.uploadedAt p
  end.

(** The maps of the store other than [resumes]. *)
Definition sameElsewhere (st st' : MemStorage) : Prop :=
  users st' = users st /\ skills st' = skills st /\ jobs st' = jobs st /\
  careerPaths st' = careerPaths st /\ courses st' = courses st /\
  activities st' = activities st.

(** ** Histories of the store *)

(** The operations that change the store. *)
Inductive Op :=
| CreateUser (id : string) (now : Z) (i : InsertUser.t)
| CreateResume (id : string) (now : Z) (i : InsertResume.t)
| UpdateResume (id : string) (data : ResumePatch.t)
| CreateSkill (id : string) (now : Z) (i : InsertSkill.t)
| CreateJob (id : string) (now : Z) (i : InsertJob.t)
| CreateCareerPath (id : string) (now : Z) (i : InsertCareerPath.t)
| CreateCourse (id : string) (now : Z) (i : InsertCourse.t)
| CreateActivity (id : string) (now : Z) (i : InsertActivity.t).

Definition perform (st : MemStorage) (op : Op) : MemStorage :=
  match op with
  | CreateUser id now i => fst (createUser st id now i)
  | CreateResume id now i => fst (createResume st id now i)
  | UpdateResume id data => fst (updateResume st id data)
  | CreateSkill id now i => fst (createSkill st id now i)
  | CreateJob id now i => fst (createJob st id now i)
  | CreateCareerPath id now i => fst (createCareerPath st id now i)
  | CreateCourse id now i => fst (createCourse st id now i)
  | CreateActivity id now i => fst (createActivity st id now i)
  end.

(** The stores a process can be in when it only runs operations in [allowed]. *)
Inductive reachable (allowed : Op -> Prop) : MemStorage -> Prop :=
| reachable_init (uuid : nat -> string) (date : nat -> Z) :
    reachable allowed (initializeSampleData uuid date)
| reachable_step (st : MemStorage) (op : Op) :
    reachable allowed st -> allowed op -> reachable allowed (perform st op).

Definition anyOp (op : Op) : Prop := True.

(** Every operation but a partial update that writes score 0. *)
Definition noZeroScorePatch (op : Op) : Prop :=
  match op with
  | UpdateResume _ data => ResumePatch.score data <> Some (Some 0)
  | _ => True
  end.

Definition scoreNotZero (r : Resume.t) : Prop := Resume.score r <> Some 0.
Definition matchScoreNotZero (j : Job.t) : Prop := Job.matchScore j <> Some 0.

(** ** Sample worlds *)

(** Oracles that give every record its own identifier and instant. *)
Definition sampleIds (k : nat) : string :=
  String (Ascii.ascii_of_nat (65 + k)) "".
Definition sampleDates (k : nat) : Z := 1700000000000 + Z.of_nat k.

Definition oneJob : InsertJob.t :=
  InsertJob.mk "Backend Developer" "Acme" "Remote" None "Builds services"
               JUndefined (Some 80) None None.

(** A world right after the constructor: it has drawn six identifiers and
    seven instants. *)
Definition worldWith (st : MemStorage) (files : gmap string string) : World :=
  mkWorld st files None sampleIds sampleDates 6 7.

(** A store that holds the sample data and one job. *)
Definition oneJobWorld : World :=
  worldWith (fst (createJob (initializeSampleData sampleIds sampleDates)
                            "job-a" 1700000000100 oneJob)) ∅.

(** ** Outcomes of a collaborator call *)

(** A step that leaves what was sent and the files as they are. *)
Definition quiet (c : M unit) : Prop :=
  forall w, exists w', c w = (Ok tt, w') /\ sent w' = sent w /\ disk w' = disk w.

(** The collaborator call failed: [axios] rejected, or the payload's
    [success] is falsy. *)
Definition collaboratorFailed (axios : AxiosOutcome) : bool :=
  match js_get "success" (callPythonService axios) with
  | Ok success => negb (truthy success)
  | Throw _ => false
  end.

(** The jobs handler throws before it answers: the payload is [null], or it
    reports success without a [jobs] value that has [slice]. *)
Definition jobsHandlerThrows (axios : AxiosOutcome) : bool :=
  match js_get "success" (callPythonService axios) with
  | Throw _ => true
  | Ok success =>
      truthy success &&
      match js_get_opt "jobs" (callPythonService axios) with
      | JArr _ | JStr _ => false
      | _ => true
      end
  end.

Definition isFallbackReply (b : Body.t) : Prop :=
  exists message, b = Body.Jobs true fallbackJobs (JStr "fallback_data") (JStr message).

Definition isNonEmptyArray (v : JsVal) : bool :=
  match v with JArr (_ :: _) => true | _ => false end.

(** The jobs reply as the specification words it: status 200, a non-empty
    [jobs] array, and [source] is ["fallback_data"] exactly when the
    collaborator call failed. *)
Definition jobsReplyAsSpecified (axios : AxiosOutcome) (reply : option Response) : Prop :=
  exists jobs source message,
    reply = Some (mkResponse 200 (Body.Jobs true jobs source message)) /\
    isNonEmptyArray jobs = true /\
    (source = JStr "fallback_data" <-> collaboratorFailed axios = true).

(** The collaborator answers that it found nothing. *)
Definition noLiveJobs : AxiosOutcome :=
  Resolved (JObj [("success", JBool true); ("jobs", JArr []);
                  ("source", JStr "remotive_api"); ("message", JStr "Found 0 jobs")]).

Definition sampleWorld : World :=
  worldWith (initializeSampleData sampleIds sampleDates) ∅.

(** The collaborator answers from a fallback of its own and says so. *)
Definition liveFallbackJobs : AxiosOutcome :=
  Resolved (JObj [("success", JBool true);
                  ("jobs", JArr [JObj [("title", JStr "Data Engineer")]]);
                  ("source", JStr "fallback_data"); ("message", JStr "Found 1 jobs")]).

Definition fallbackMessage : JsVal :=
  JStr "Resume uploaded (basic parsing - Python service unavailable)".

(** An upload as multer hands it over: the file is on disk. *)
Definition cvFile : MulterFile := mkFile "uploads/3f2a9c" "cv.txt" "text/plain".
Definition cvText : string := "Jane Doe. Python, SQL.".

Definition uploadWorld : World :=
  worldWith (initializeSampleData sampleIds sampleDates) {[ path cvFile := cvText ]}.

(** The collaborator parses the resume and scores it 0. *)
Definition zeroScoreAnswer : AxiosOutcome :=
  Resolved (JObj [("success", JBool true); ("content", JStr cvText);
                  ("parsedData", JObj [("name", JStr "Jane Doe");
                                       ("skills", jsStrings ["Python"; "SQL"])]);
                  ("score", JNum 0); ("message", JStr "Resume processed successfully")]).

(** The collaborator answers 200 with the JSON body [null]. *)
Definition nullAnswer : AxiosOutcome := Resolved JNull.

(** ** Identifiers and patches *)

(** A collection indexed by its records' own identifiers: the identifiers are
    pairwise distinct and every stored record is found under its identifier. *)
Definition indexedById {V} (id : V -> string) (m : JsMap V) : Prop :=
  NoDup (List.map id (map_values m)) /\
  forall v, In v (map_values m) -> map_get (id v) m = Some v.

(** The patch that names no field. *)
Definition emptyPatch : ResumePatch.t :=
  ResumePatch.mk None None None None None None None.

(** [{ ...first, ...second }] on patches. *)
Definition overridePatch (first second : ResumePatch.t) : ResumePatch.t :=
  ResumePatch.mk
    (ResumePatch.id second ∪ ResumePatch.id first)
    (ResumePatch.userId second ∪ ResumePatch.userId first)
    (ResumePatch.fileName second ∪ ResumePatch.fileName first)
    (ResumePatch.content second ∪ ResumePatch.content first)
    (ResumePatch.parsedData second ∪ ResumePatch.parsedData first)
    (ResumePatch.score second ∪ ResumePatch.score first)
    (ResumePatch.uploadedAt second ∪ ResumePatch.uploadedAt first).



(** Every entry sits under its record's identifier, and no key occurs twice. *)
Definition keyedById {V} (id : V -> string) (m : JsMap V) : Prop :=
  NoDup (List.map fst m) /\ forall k v, In (k, v) m -> id v = k.

(** The six collections that have no update operation. *)
Definition storeKeyedById (st : MemStorage) : Prop :=
  keyedById User.id (users st) /\ keyedById Skill.id (skills st) /\
  keyedById Job.id (jobs st) /\ keyedById CareerPath.id (careerPaths st) /\
  keyedById Course.id (courses st) /\ keyedById Activity.id (activities st).


(** ** Effects of a handler *)

Inductive Collection :=
  Users | Resumes | Skills | Jobs | CareerPaths | Courses | Activities.

Definition sameCollection (c : Collection) (st st' : MemStorage) : Prop :=
  match c with
  | Users => users st' = users st
  | Resumes => resumes st' = resumes st
  | Skills => skills st' = skills st
  | Jobs => jobs st' = jobs st
  | CareerPaths => careerPaths st' = careerPaths st
  | Courses => courses st' = courses st
  | Activities => activities st' = activities st
  end.

(** From [w] to [w'] nothing changed but the collection [c]: the other
    collections, the files, what was sent and the oracles are the same. *)
Definition changesOnly (c : Collection) (w w' : World) : Prop :=
  sent w' = sent w /\ disk w' = disk w /\
  randomUUID w' = randomUUID w /\ Date_now w' = Date_now w /\
  forall c', c' <> c -> sameCollection c' (storage w) (storage w').

(** A step that does not throw and relates the worlds by [R]. *)
Definition runsQuietly (R : World -> World -> Prop) (c : M unit) : Prop :=
  forall w, exists w', c w = (Ok tt, w') /\ R w w'.

(** The activity an upload logs. *)
Definition isUploadLog (f : MulterFile) (a : Activity.t) : Prop :=
  Activity.userId a = defaultUserId /\ Activity.type a = "resume_upload" /\
  Activity.status a = "completed" /\
  Activity.description a = "Uploaded and analyzed resume: " ++ originalname f.

(** An upload answered with a score other than 0. *)
Definition scoredAnswer : AxiosOutcome :=
  Resolved (JObj [("success", JBool true); ("content", JStr cvText);
                  ("parsedData", JObj [("skills", jsStrings ["Python"; "SQL"; "Docker"])]);
                  ("score", JNum 82); ("message", JStr "Resume processed successfully")]).

(** What an upload with a file leaves behind, by its answer. *)
Definition uploadThrew (f : MulterFile) (w w' : World) : Prop :=
  exists message,
    sent w' = Some (mkResponse 500 (Body.Error message)) /\
    disk w' = disk w /\
    skills (storage w') = skills (storage w) /\
    activities (storage w') = activities (storage w).

Definition uploadCompleted (f : MulterFile) (w w' : World) : Prop :=
  exists resume message count,
    sent w' = Some (mkResponse 200 (Body.Upload true resume message count)) /\
    Resume.id resume = randomUUID w (uuids w) /\
    Resume.userId resume = defaultUserId /\
    resumes (storage w') = map_set (randomUUID w (uuids w)) resume (resumes (storage w)) /\
    disk w' !! path f = None /\
    exists a, In a (map_values (activities (storage w'))) /\ isUploadLog f a.

(** The parts of the world no upload touches. *)
Definition uploadFrame (f : MulterFile) (w w' : World) : Prop :=
  users (storage w') = users (storage w) /\
  jobs (storage w') = jobs (storage w) /\
  careerPaths (storage w') = careerPaths (storage w) /\
  courses (storage w') = courses (storage w) /\
  forall q, q <> path f -> disk w' !! q = disk w !! q.

(** The world after a first upload, with a second file uploaded. *)
Definition secondUploadWorld : World :=
  let w1 := handle (uploadResume (Some cvFile) zeroScoreAnswer) uploadWorld in
  mkWorld (storage w1) {[ path cvFile := cvText ]} None
          sampleIds sampleDates (uuids w1) (dates w1).

(** [GET /api/career-paths] throws before it answers: the payload is [null],
    or it reports success without iterable [paths]. *)
Definition pathsHandlerThrows (axios : AxiosOutcome) : bool :=
  match js_get "success" (callPythonService axios) with
  | Throw _ => true
  | Ok success =>
      truthy success &&
      match js_get_opt "paths" (callPythonService axios) with
      | JArr _ | JStr _ => false
      | _ => true
      end
  end.


(** The course [createCourse] makes of an insert record. *)
Definition courseOf (id : string) (now : Z) (i : InsertCourse.t) : Course.t :=
  snd (createCourse emptyStorage id now i).

(** A world whose store holds no course. *)
Definition emptyWorld : World := worldWith emptyStorage ∅.





(** * Properties *)

(** ** The sort *)

Section SortFacts.
Context {A : Type} (cmp : A -> A -> Z).

Lemma sort_insert_perm (x : A) (l : list A) :
  Permutation (sort_insert cmp x l) (x :: l).
Proof.
  induction l as [|y l IH]; simpl.
  - apply Permutation_refl.
  - destruct (cmp x y <=? 0)%Z.
    + apply Permutation_refl.
    + eapply perm_trans; [apply perm_skip, IH | apply perm_swap].
Qed.

Lemma js_sort_perm (l : list A) : Permutation (js_sort cmp l) l.
Proof.
  induction l as [|x l IH]; simpl.
  - constructor.
  - eapply perm_trans; [apply sort_insert_perm | apply perm_skip, IH].
Qed.

Lemma js_sort_In (l : list A) (x : A) : In x (js_sort cmp l) <-> In x l.
Proof.
  split; apply Permutation_in;
    [apply js_sort_perm | apply Permutation_sym, js_sort_perm].
Qed.

(** The comparator is [key b - key a]: descending by [key]. *)
Context (key : A -> Z) (cmp_key : forall a b, cmp a b = key b - key a).

Lemma sort_insert_descending (x : A) (l : list A) :
  descending key l -> descending key (sort_insert cmp x l).
Proof.
  unfold descending. induction 1 as [|y l Hl IH Hy]; simpl.
  - repeat constructor.
  - destruct (cmp x y <=? 0)%Z eqn:E.
    + apply Z.leb_le in E. rewrite cmp_key in E.
      constructor; [by constructor|].
      constructor; [lia|].
      eapply Forall_impl; [exact Hy|]. simpl. intros z Hz. lia.
    + apply Z.leb_gt in E. rewrite cmp_key in E.
      constructor; [exact IH|].
      apply List.Forall_forall. intros z Hz.
      apply (Permutation_in _ (sort_insert_perm x l)) in Hz.
      destruct Hz as [<-|Hz]; [lia|].
      rewrite List.Forall_forall in Hy. by apply Hy.
Qed.

Lemma js_sort_descending (l : list A) : descending key (js_sort cmp l).
Proof.
  induction l as [|x l IH]; simpl.
  - constructor.
  - by apply sort_insert_descending.
Qed.

(** The head of a descending list carries the greatest key. *)
Lemma descending_head (x : A) (l : list A) (y : A) :
  descending key (x :: l) -> In y (x :: l) -> key y <= key x.
Proof.
  intros H Hy. inversion H as [|? ? _ Hall]; subst.
  destruct Hy as [<-|Hy]; [lia|].
  rewrite List.Forall_forall in Hall. by apply Hall.
Qed.
End SortFacts.

(** ** Job listings *)

Lemma truthy_Z_eq (n : Z) : truthy n = negb (n =? 0)%Z.
Proof. reflexivity. Qed.

Lemma truthy_Some {A} `{Truthy A} (a : A) : truthy (Some a) = truthy a.
Proof. reflexivity. Qed.

Lemma or_default_zero (o : option Z) : or_default o 0 = default 0 o.
Proof.
  destruct o as [n|]; simpl; [|done].
  rewrite truthy_Z_eq. destruct (n =? 0)%Z eqn:E; simpl; [|done].
  apply Z.eqb_eq in E. by subst.
Qed.

Lemma byMatchScore_key (a b : Job.t) : byMatchScore a b = scoreOrZero b - scoreOrZero a.
Proof. unfold byMatchScore, scoreOrZero. by rewrite !or_default_zero. Qed.

(** C6. For every store, filter and [minScore], [getJobs] and
    [getJobsByMatchScore] return lists in descending order of match score with
    an absent score read as 0, and [getJobsByMatchScore] returns exactly the
    stored jobs whose match score (absent read as 0) is at least [minScore]:
    the same jobs with the same multiplicities. *)
Theorem job_listings_sorted_and_exact
    (st : MemStorage) (filters : option JobFilters.t) (minScore : Z) :
  descending scoreOrZero (getJobs st filters) /\
  descending scoreOrZero (getJobsByMatchScore st minScore) /\
  Permutation (getJobsByMatchScore st minScore)
              (List.filter (fun j => (minScore <=? scoreOrZero j)%Z) (map_values (jobs st))) /\
  (forall j, In j (getJobsByMatchScore st minScore) <->
             In j (map_values (jobs st)) /\ minScore <= scoreOrZero j).
Proof.
  assert (Hf : forall l,
    List.filter (fun job => (or_default (Job.matchScore job) 0 >=? minScore)%Z) l =
    List.filter (fun j => (minScore <=? scoreOrZero j)%Z) l).
  { intros l. apply filter_ext. intros j.
    rewrite or_default_zero. unfold scoreOrZero. apply Z.geb_leb. }
  split; [apply (js_sort_descending _ _ byMatchScore_key)|].
  split; [apply (js_sort_descending _ _ byMatchScore_key)|].
  unfold getJobsByMatchScore. rewrite Hf.
  split; [apply js_sort_perm|].
  intros j. rewrite js_sort_In, filter_In, Z.leb_le. reflexivity.
Qed.

(** ** Facts about [Map.set] *)

Section MapFacts.
Context {V : Type}.
Implicit Types (m : JsMap V) (k : string) (v : V).

Lemma map_get_set_eq m k v : map_get k (map_set k v m) = Some v.
Proof.
  induction m as [|[k' v'] m IH]; simpl; [by rewrite String.eqb_refl|].
  destruct (String.eqb k k') eqn:E; simpl; rewrite ?String.eqb_refl, ?E; done.
Qed.

Lemma map_get_set_ne m k k' v : k' <> k -> map_get k' (map_set k v m) = map_get k' m.
Proof.
  intros Hne. apply String.eqb_neq in Hne.
  induction m as [|[k0 v0] m IH]; simpl; [by rewrite Hne|].
  destruct (String.eqb k k0) eqn:E; simpl.
  - apply String.eqb_eq in E. subst. by rewrite Hne.
  - by rewrite IH.
Qed.

Lemma map_set_values_new m k v : In v (map_values (map_set k v m)).
Proof.
  induction m as [|[k' v'] m IH]; simpl; [by left|].
  destruct (String.eqb k k'); simpl; [by left | by right].
Qed.

Lemma map_set_values_old m k v x :
  In x (map_values (map_set k v m)) -> x = v \/ In x (map_values m).
Proof.
  induction m as [|[k' v'] m IH]; simpl.
  - intros [<-|[]]. by left.
  - destruct (String.eqb k k'); simpl.
    + intros [<-|H]; [by left | by right; right].
    + intros [<-|H]; [by right; left|].
      destruct (IH H); [by left | by right; right].
Qed.

(** Every stored value satisfies [P] after [set] when the new one does. *)
Lemma map_set_Forall (P : V -> Prop) m k v :
  P v -> Forall P (map_values m) -> Forall P (map_values (map_set k v m)).
Proof.
  intros Hv Hm. apply List.Forall_forall. intros x Hx.
  destruct (map_set_values_old _ _ _ _ Hx) as [->|Hin]; [done|].
  rewrite List.Forall_forall in Hm. by apply Hm.
Qed.
End MapFacts.

(** ** Activity listing *)

Lemma byCreatedAt_key (a b : Activity.t) :
  byCreatedAt a b = createdAtTime b - createdAtTime a.
Proof. reflexivity. Qed.

Lemma getActivitiesByUserId_In (st : MemStorage) (userId : string) (a : Activity.t) :
  In a (getActivitiesByUserId st userId) <->
  In a (map_values (activities st)) /\ Activity.userId a = userId.
Proof.
  unfold getActivitiesByUserId. by rewrite js_sort_In, filter_In, String.eqb_eq.
Qed.

(** Counterexample to C7 as stated: two activities of one user created within
    the same millisecond.  The listing is stable, so the earlier record stays in
    front of the one just created. *)
Lemma activity_created_on_tie_not_first :
  exists (st : MemStorage) (id : string) (now : Z) (i : InsertActivity.t),
    hd_error (getActivitiesByUserId (fst (createActivity st id now i)) (InsertActivity.userId i))
    <> Some (snd (createActivity st id now i)).
Proof.
  exists (fst (createActivity emptyStorage "a1" 1700000000000
                 (InsertActivity.mk "default-user" "note" "first" "new"))),
         "a2", 1700000000000,
         (InsertActivity.mk "default-user" "note" "second" "new").
  vm_compute. discriminate.
Qed.

(** C7 (amended). For every store and user, [getActivitiesByUserId] returns
    exactly that user's activities in descending order of [createdAt]; after
    [createActivity] at an instant strictly later than the [createdAt] of every
    stored activity of that user, the re-fetched list starts with the activity
    just created. *)
Theorem activities_newest_first (st : MemStorage) (userId : string) :
  descending createdAtTime (getActivitiesByUserId st userId) /\
  Permutation (getActivitiesByUserId st userId)
              (List.filter (ownedBy userId) (map_values (activities st))) /\
  forall (id : string) (now : Z) (i : InsertActivity.t),
    InsertActivity.userId i = userId ->
    (forall a, In a (map_values (activities st)) -> Activity.userId a = userId ->
               createdAtTime a < now) ->
    hd_error (getActivitiesByUserId (fst (createActivity st id now i)) userId)
    = Some (snd (createActivity st id now i)).
Proof.
  split; [apply (js_sort_descending _ _ byCreatedAt_key)|].
  split; [apply js_sort_perm|].
  intros id now i Hu Hlater.
  set (st' := fst (createActivity st id now i)).
  set (created := snd (createActivity st id now i)).
  assert (Hin : In created (getActivitiesByUserId st' userId)).
  { apply getActivitiesByUserId_In. split; [apply map_set_values_new | exact Hu]. }
  pose proof (js_sort_descending _ _ byCreatedAt_key
                (List.filter (fun a => String.eqb (Activity.userId a) userId)
                             (map_values (activities st')))) as Hsorted.
  fold (getActivitiesByUserId st' userId) in Hsorted.
  destruct (getActivitiesByUserId st' userId) as [|h t] eqn:E; [destruct Hin|].
  simpl. f_equal.
  pose proof (descending_head _ _ _ _ Hsorted Hin) as Hle.
  assert (Hh : In h (getActivitiesByUserId st' userId)) by (rewrite E; by left).
  apply getActivitiesByUserId_In in Hh as [Hh Hhu].
  destruct (map_set_values_old _ _ _ _ Hh) as [->|Hold]; [done|].
  specialize (Hlater h Hold Hhu).
  change (createdAtTime created) with now in Hle. lia.
Qed.

(** A later activity moves to the front. *)
Lemma activities_newest_first_witness :
  let st := fst (createActivity emptyStorage "a1" 1700000000000
                   (InsertActivity.mk "default-user" "note" "first" "new")) in
  hd_error (getActivitiesByUserId
              (fst (createActivity st "a2" 1700000000001
                      (InsertActivity.mk "default-user" "note" "second" "new")))
              "default-user")
  = Some (Activity.mk "a2" "default-user" "note" "second" "new" (Some 1700000000001)).
Proof.
  intros st.
  apply (proj2 (proj2 (activities_newest_first st "default-user")) "a2" 1700000000001
           (InsertActivity.mk "default-user" "note" "second" "new")).
  - reflexivity.
  - intros a [<-|[]] _. vm_compute. reflexivity.
Defined.

(** ** Resume partial update *)

(** C8. [updateResume] on an identifier that names no stored resume returns
    [undefined] and leaves the store as it was; on a stored resume it returns a
    resume that is stored under the identifier afterwards, in which every field
    the patch names has the patch's value and every other field its previous
    value; nothing else in the store changes. *)
Theorem updateResume_merges (st : MemStorage) (id : string) (data : ResumePatch.t) :
  match map_get id (resumes st) with
  | None => updateResume st id data = (st, None)
  | Some previous =>
      exists updated,
        snd (updateResume st id data) = Some updated /\
        map_get id (resumes (fst (updateResume st id data))) = Some updated /\
        (forall f, resumeField f updated =
                   match patchField f data with
                   | Some value => value
                   | None => resumeField f previous
                   end) /\
        (forall id', id' <> id ->
           map_get id' (resumes (fst (updateResume st id data))) = map_get id' (resumes st)) /\
        sameElsewhere st (fst (updateResume st id data))
  end.
Proof.
  unfold updateResume.
  destruct (map_get id (resumes st)) as [previous|] eqn:E; [|reflexivity].
  exists (mergeResume previous data). simpl.
  split; [reflexivity|].
  split; [apply map_get_set_eq|].
  split.
  - intros f. destruct data as [pid puser pfile pcontent pparsed pscore puploaded].
    destruct f; simpl;
      [destruct pid | destruct puser | destruct pfile | destruct pcontent
       | destruct pparsed | destruct pscore | destruct puploaded]; reflexivity.
  - split; [intros id' Hne; by apply map_get_set_ne|].
    repeat split.
Qed.

(** ** Falsy optional values at creation *)

Lemma or_null_not_zero (o : option Z) : or_null o <> Some 0.
Proof.
  destruct o as [n|]; [|done].
  unfold or_null. rewrite truthy_Some, truthy_Z_eq.
  destruct (n =? 0)%Z eqn:E; simpl; [done|].
  apply Z.eqb_neq in E. congruence.
Qed.

Lemma map_get_values {V} (m : JsMap V) (k : string) (v : V) :
  map_get k m = Some v -> In v (map_values m).
Proof.
  induction m as [|[k' v'] m IH]; simpl; [done|].
  destruct (String.eqb k k'); [intros [= ->]; by left | right; by apply IH].
Qed.

Lemma jobs_never_zero (st : MemStorage) :
  reachable anyOp st -> Forall matchScoreNotZero (map_values (jobs st)).
Proof.
  induction 1 as [uuid date | st op _ IH _]; [constructor|].
  destruct op; simpl; try exact IH.
  - unfold updateResume. by destruct (map_get id (resumes st)).
  - apply map_set_Forall; [apply or_null_not_zero | exact IH].
Qed.

Lemma resumes_never_zero (st : MemStorage) :
  reachable noZeroScorePatch st -> Forall scoreNotZero (map_values (resumes st)).
Proof.
  induction 1 as [uuid date | st op _ IH Hop]; [constructor|].
  destruct op; simpl; try exact IH.
  - apply map_set_Forall; [apply or_null_not_zero | exact IH].
  - unfold updateResume. destruct (map_get id (resumes st)) as [r|] eqn:E; [|exact IH].
    simpl. apply map_set_Forall; [|exact IH].
    unfold scoreNotZero, mergeResume. simpl in *.
    destruct (ResumePatch.score data) as [s|]; simpl; [congruence|].
    rewrite List.Forall_forall in IH. apply (IH r). by eapply map_get_values.
Qed.

(** Counterexample to C9 as stated: the store also has [updateResume], and a
    patch with score 0 is stored as it is. *)
Lemma stored_resume_with_score_zero :
  exists (st : MemStorage) (r : Resume.t),
    reachable anyOp st /\ In r (map_values (resumes st)) /\ Resume.score r = Some 0.
Proof.
  set (st0 := initializeSampleData (fun _ => "u") (fun _ => 0)).
  set (st1 := perform st0 (CreateResume "r1" 1
                           (InsertResume.mk "default-user" "cv.txt" "text" JUndefined (Some 0)))).
  set (st2 := perform st1 (UpdateResume "r1"
                           (ResumePatch.mk None None None None None (Some (Some 0)) None))).
  exists st2, (Resume.mk "r1" "default-user" "cv.txt" "text" JNull (Some 0) (Some 1)).
  split; [|split; [by left | reflexivity]].
  repeat (apply reachable_step; [|exact I]). apply reachable_init.
Qed.

(** C9 (amended). The create operations store and return [null] for a falsy
    optional value: [createResume] for score 0, [createJob] for match score 0,
    [createSkill] for [isInDemand = false].  Hence no stored job ever has match
    score 0, and no stored resume has score 0 as long as no partial update
    writes score 0. *)
Theorem create_coerces_falsy_to_null :
  (forall st id now i, InsertResume.score i = Some 0 ->
     Resume.score (snd (createResume st id now i)) = None /\
     map_get id (resumes (fst (createResume st id now i)))
       = Some (snd (createResume st id now i))) /\
  (forall st id now i, InsertJob.matchScore i = Some 0 ->
     Job.matchScore (snd (createJob st id now i)) = None /\
     map_get id (jobs (fst (createJob st id now i)))
       = Some (snd (createJob st id now i))) /\
  (forall st id now i, InsertSkill.isInDemand i = Some false ->
     Skill.isInDemand (snd (createSkill st id now i)) = None /\
     map_get id (skills (fst (createSkill st id now i)))
       = Some (snd (createSkill st id now i))) /\
  (forall st, reachable anyOp st ->
     forall j, In j (map_values (jobs st)) -> Job.matchScore j <> Some 0) /\
  (forall st, reachable noZeroScorePatch st ->
     forall r, In r (map_values (resumes st)) -> Resume.score r <> Some 0).
Proof.
  split; [|split; [|split; [|split]]].
  - intros st id now i E. simpl. rewrite E. split; [reflexivity | apply map_get_set_eq].
  - intros st id now i E. simpl. rewrite E. split; [reflexivity | apply map_get_set_eq].
  - intros st id now i E. simpl. rewrite E. split; [reflexivity | apply map_get_set_eq].
  - intros st H j Hj. apply jobs_never_zero in H.
    rewrite List.Forall_forall in H. by apply H.
  - intros st H r Hr. apply resumes_never_zero in H.
    rewrite List.Forall_forall in H. by apply H.
Qed.

(** A resume created with score 0 comes back with score [null]. *)
Lemma create_coerces_falsy_to_null_witness :
  Resume.score
    (snd (createResume emptyStorage "r1" 1
            (InsertResume.mk "default-user" "cv.txt" "text" JUndefined (Some 0)))) = None.
Proof.
  apply (proj1 create_coerces_falsy_to_null emptyStorage "r1" 1
           (InsertResume.mk "default-user" "cv.txt" "text" JUndefined (Some 0))).
  reflexivity.
Defined.

(** ** Dashboard statistics *)

(** What the dashboard handler sends, for every store. *)
Lemma dashboardStats_reply (w : World) :
  sent (handle dashboardStats w) =
  Some (mkResponse 200
          (Body.Stats
             (match getResumeByUserId (storage w) defaultUserId with
              | Some r => default 0 (Resume.score r)
              | None => 0
              end)
             (Z.of_nat (List.length (getSkillsByUserId (storage w) defaultUserId)))
             (match getJobs (storage w) None with
              | [] => 3
              | jobs => Z.of_nat (List.length jobs)
              end))).
Proof.
  unfold handle, dashboardStats, try_catch, bind, query, send, fresh. simpl.
  do 3 f_equal. f_equal.
  - destruct (getResumeByUserId (storage w) defaultUserId); [apply or_default_zero | done].
  - by destruct (getJobs (storage w) None).
Qed.

(** C4 at a store with one job: the handler reports one recommendation, where
    the floor of three ([Show minimum 3] in the handler) asks for three. *)
Theorem dashboard_one_job_reports_one :
  sent (handle dashboardStats oneJobWorld) = Some (mkResponse 200 (Body.Stats 0 4 1)) /\
  Z.of_nat (List.length (getJobs (storage oneJobWorld) None)) = 1 /\
  Z.max 1 3 = 3.
Proof. rewrite dashboardStats_reply. vm_compute. done. Qed.

(** ** Creating an activity over HTTP *)

(** C10. Whatever body [POST /api/activities] accepts, the activity it creates,
    stores and returns belongs to the default user, also when the body names
    another user; and the request adds no activity of any other user to the
    store. *)
Theorem postActivities_owner_is_default_user (body : JsVal) (w : World) :
  (forall data, insertActivitySchema_safeParse body = Some data ->
     exists activity,
       sent (handle (postActivities body) w) = Some (mkResponse 200 (Body.Created activity)) /\
       Activity.userId activity = defaultUserId /\
       Activity.type activity = InsertActivity.type data /\
       Activity.description activity = InsertActivity.description data /\
       Activity.status activity = InsertActivity.status data /\
       In activity (map_values (activities (storage (handle (postActivities body) w))))) /\
  (forall a, In a (map_values (activities (storage (handle (postActivities body) w)))) ->
             Activity.userId a <> defaultUserId ->
             In a (map_values (activities (storage w)))).
Proof.
  unfold handle, postActivities, try_catch, bind, create, send, fresh.
  destruct (insertActivitySchema_safeParse body) as [data|]; simpl.
  - split.
    + intros ? [= <-]. eexists. split; [reflexivity|].
      repeat (split; [reflexivity|]). apply map_set_values_new.
    + intros a Ha Hne. destruct (map_set_values_old _ _ _ _ Ha) as [->|Hold]; done.
  - split; [intros ? [=] | intros a Ha _; exact Ha].
Qed.

(** A body that names another user is accepted, and the activity is the
    default user's. *)
Lemma postActivities_owner_is_default_user_witness :
  exists activity,
    sent (handle (postActivities
                    (JObj [("userId", JStr "mallory"); ("type", JStr "note");
                           ("description", JStr "hello"); ("status", JStr "new")]))
                 (worldWith emptyStorage ∅))
    = Some (mkResponse 200 (Body.Created activity)) /\
    Activity.userId activity = "default-user".
Proof.
  destruct (proj1 (postActivities_owner_is_default_user
                     (JObj [("userId", JStr "mallory"); ("type", JStr "note");
                            ("description", JStr "hello"); ("status", JStr "new")])
                     (worldWith emptyStorage ∅))
                  (InsertActivity.mk "mallory" "note" "hello" "new") eq_refl)
    as (activity & Hsent & Howner & _).
  exists activity. split; [exact Hsent | exact Howner].
Defined.

(** ** Job listing over HTTP *)

Lemma storeJob_quiet (jobData : JsVal) : quiet (storeJob jobData).
Proof.
  intros w. unfold storeJob, try_catch, bind, lift, create, ret.
  destruct jobData; simpl; eauto.
Qed.

Lemma for_of_quiet {A} (l : list A) (f : A -> M unit) :
  (forall x, quiet (f x)) -> quiet (for_of l f).
Proof.
  intros Hf. induction l as [|x l IH]; intros w; simpl.
  - unfold ret. eauto.
  - unfold bind. destruct (Hf x w) as (w1 & -> & Hs1 & Hd1).
    destruct (IH w1) as (w2 & -> & Hs2 & Hd2).
    exists w2. repeat split; congruence.
Qed.

(** What the jobs handler sends. *)
Lemma getApiJobs_reply (axios : AxiosOutcome) (w : World) :
  exists b, sent (handle (getApiJobs axios) w) = Some (mkResponse 200 b) /\
    if collaboratorFailed axios || jobsHandlerThrows axios then isFallbackReply b
    else b = Body.Jobs true (js_get_opt "jobs" (callPythonService axios))
                            (js_get_opt "source" (callPythonService axios))
                            (js_get_opt "message" (callPythonService axios)).
Proof.
  unfold handle, getApiJobs, collaboratorFailed, jobsHandlerThrows, js_get_opt.
  unfold try_catch at 1. unfold bind at 1, query at 1. unfold bind at 1.
  set (resp := callPythonService axios). clearbody resp.
  unfold lift at 1.
  destruct (js_get "success" resp) as [success|e] eqn:Hs.
  2: { simpl. eexists. split; [reflexivity|]. by eexists. }
  destruct (truthy success) eqn:Ht; simpl.
  2: { eexists. split; [reflexivity|]. by eexists. }
  assert (Hget : forall k, exists v, js_get k resp = Ok v).
  { intros k. destruct resp; simpl in *; try discriminate; eauto. }
  destruct (Hget "jobs") as (jobs & Hj).
  destruct (Hget "source") as (source & Hsrc).
  destruct (Hget "message") as (message & Hm).
  rewrite Hj, Hsrc, Hm. clear Hj Hsrc Hm Hget Hs.
  assert (Hloop : forall l, exists w',
            for_of l storeJob (fresh w) = (Ok tt, w') /\ sent w' = None).
  { intros l. destruct (for_of_quiet l storeJob storeJob_quiet (fresh w))
      as (w' & E & Hsent & _). eauto. }
  unfold bind at 1, lift at 1. unfold bind at 1, lift at 1.
  destruct jobs; simpl;
    try (eexists; split; [reflexivity|]; by eexists).
  - unfold bind at 1, lift at 1, js_iterate. unfold bind at 1.
    destruct (Hloop (chars (substring 0 10 s))) as (w' & E & Hsent).
    rewrite E. unfold bind, lift, send. rewrite Hsent. simpl. eauto.
  - unfold bind at 1, lift at 1, js_iterate. unfold bind at 1.
    destruct (Hloop (firstn 10 items)) as (w' & E & Hsent).
    rewrite E. unfold bind, lift, send. rewrite Hsent. simpl. eauto.
Qed.

(** Counterexample to C1 as stated: the handler forwards what the collaborator
    reports; an empty list of live jobs reaches the client, and so does a
    source ["fallback_data"] of a call that did not fail. *)
Lemma getApiJobs_forwards_collaborator_report :
  ~ jobsReplyAsSpecified noLiveJobs (sent (handle (getApiJobs noLiveJobs) sampleWorld)) /\
  ~ jobsReplyAsSpecified liveFallbackJobs
      (sent (handle (getApiJobs liveFallbackJobs) sampleWorld)).
Proof.
  split.
  - assert (E : sent (handle (getApiJobs noLiveJobs) sampleWorld)
                = Some (mkResponse 200 (Body.Jobs true (JArr []) (JStr "remotive_api")
                                                  (JStr "Found 0 jobs"))))
      by (vm_compute; reflexivity).
    rewrite E. intros (jobs & source & message & [= <- <- <-] & Hne & _). discriminate.
  - assert (E : sent (handle (getApiJobs liveFallbackJobs) sampleWorld)
                = Some (mkResponse 200
                          (Body.Jobs true (JArr [JObj [("title", JStr "Data Engineer")]])
                                     (JStr "fallback_data") (JStr "Found 1 jobs"))))
      by (vm_compute; reflexivity).
    rewrite E. intros (jobs & source & message & [= <- <- <-] & _ & Hiff).
    destruct Hiff as [Hfailed _]. specialize (Hfailed eq_refl). discriminate.
Qed.

(** C1 (amended). Every [GET /api/jobs] is answered with status 200 and a jobs
    body.  When the collaborator call failed or the handler threw, the body
    carries the fixed, non-empty fallback list and source ["fallback_data"].
    When the collaborator reported success with a [jobs] array, the body
    carries that array as it is and the source the collaborator reported. *)
Theorem getApiJobs_always_answers (axios : AxiosOutcome) (w : World) :
  exists jobs source message,
    sent (handle (getApiJobs axios) w)
    = Some (mkResponse 200 (Body.Jobs true jobs source message)) /\
    (collaboratorFailed axios = true \/ jobsHandlerThrows axios = true ->
       jobs = fallbackJobs /\ isNonEmptyArray jobs = true /\
       source = JStr "fallback_data") /\
    (forall data entries,
       axios = Resolved data ->
       truthy (js_get_opt "success" data) = true ->
       js_get_opt "jobs" data = JArr entries ->
       jobs = JArr entries /\ source = js_get_opt "source" data).
Proof.
  destruct (getApiJobs_reply axios w) as (b & Hsent & Hb).
  destruct (collaboratorFailed axios || jobsHandlerThrows axios) eqn:Hcase.
  - destruct Hb as (message & ->).
    exists fallbackJobs, (JStr "fallback_data"), (JStr message).
    split; [exact Hsent|]. split; [done|].
    intros data entries -> Hok Hjobs. exfalso.
    unfold collaboratorFailed, jobsHandlerThrows in Hcase. simpl in Hcase.
    unfold js_get_opt in *.
    destruct (js_get "success" data) as [success|]; [|discriminate Hok].
    rewrite Hok, Hjobs in Hcase. discriminate.
  - subst b. do 3 eexists. split; [exact Hsent|].
    apply orb_false_iff in Hcase as [Hf Ht].
    split; [intros [?|?]; congruence|].
    intros data entries -> _ Hjobs. simpl. by rewrite Hjobs.
Qed.

(** A call that times out is answered with the fallback list. *)
Lemma getApiJobs_always_answers_witness :
  exists message,
    sent (handle (getApiJobs (Rejected "timeout of 30000ms exceeded")) sampleWorld)
    = Some (mkResponse 200 (Body.Jobs true fallbackJobs (JStr "fallback_data") message)).
Proof.
  destruct (getApiJobs_always_answers (Rejected "timeout of 30000ms exceeded") sampleWorld)
    as (jobs & source & message & Hsent & Hfallback & _).
  destruct (Hfallback (or_introl eq_refl)) as (-> & _ & ->).
  exists message. exact Hsent.
Defined.

(** ** Resume upload *)

(** C2. Whenever the collaborator call fails during a resume upload (the call
    is rejected, or its payload's [success] is falsy) the handler answers 200
    with the resume it created and stored: score 65, parsed skills exactly
    JavaScript, HTML, CSS, and [extractedSkills] 3.  The upload is a file that
    multer has written under [uploads/]. *)
Theorem upload_fallback_on_collaborator_failure
    (w : World) (f : MulterFile) (axios : AxiosOutcome) (text : string) :
  collaboratorFailed axios = true ->
  disk w !! path f = Some text ->
  exists resume,
    sent (handle (uploadResume (Some f) axios) w)
    = Some (mkResponse 200 (Body.Upload true resume fallbackMessage (JNum 3))) /\
    Resume.score resume = Some 65 /\
    js_get "skills" (Resume.parsedData resume) = Ok (jsStrings ["JavaScript"; "HTML"; "CSS"]) /\
    Resume.userId resume = defaultUserId /\
    Resume.content resume = text /\
    In resume (map_values (resumes (storage (handle (uploadResume (Some f) axios) w)))).
Proof.
  intros Hfailed Hfile. unfold collaboratorFailed in Hfailed.
  eassert (Hrun : handle (uploadResume (Some f) axios) w = _).
  { unfold handle, uploadResume, try_catch.
    unfold bind at 1. unfold bind at 1. unfold lift at 1.
    destruct (js_get "success" (callPythonService axios)) as [success|]; [|discriminate].
    apply negb_true_iff in Hfailed. rewrite Hfailed. simpl.
    unfold bind, readFile, create, lift, send, unlinkSync. simpl.
    rewrite Hfile. simpl. rewrite Hfile. simpl. reflexivity. }
  rewrite Hrun. simpl.
  eexists. split; [reflexivity|]. repeat (split; [reflexivity|]).
  apply map_set_values_new.
Qed.

(** A timed-out call: the stored resume has the fallback score. *)
Lemma upload_fallback_on_collaborator_failure_witness :
  exists resume,
    sent (handle (uploadResume (Some cvFile) (Rejected "timeout of 30000ms exceeded"))
                 uploadWorld)
    = Some (mkResponse 200 (Body.Upload true resume fallbackMessage (JNum 3))) /\
    Resume.score resume = Some 65.
Proof.
  destruct (upload_fallback_on_collaborator_failure uploadWorld cvFile
              (Rejected "timeout of 30000ms exceeded") cvText eq_refl eq_refl)
    as (resume & Hsent & Hscore & _).
  exists resume. split; [exact Hsent | exact Hscore].
Defined.

(** C3 at score 0: the collaborator's two skills are counted, but the resume
    in the answer has score [null], not the 0 the collaborator gave;
    [createResume] writes [score || null]. *)
Theorem upload_score_zero_comes_back_null :
  sent (handle (uploadResume (Some cvFile) zeroScoreAnswer) uploadWorld)
  = Some (mkResponse 200
            (Body.Upload true
               (Resume.mk (sampleIds 6) "default-user" "cv.txt" cvText
                          (JObj [("name", JStr "Jane Doe");
                                 ("skills", jsStrings ["Python"; "SQL"])])
                          None (Some (sampleDates 7)))
               (JStr "Resume processed successfully") (JNum 2))).
Proof. vm_compute. reflexivity. Qed.

(** C5 on a path that throws: reading [success] of a [null] payload raises a
    [TypeError], the handler answers 500 from its [catch], and the uploaded
    file is still on disk; the [unlinkSync] at the end of the [try] block was
    never reached. *)
Theorem upload_exception_leaves_temp_file :
  sent (handle (uploadResume (Some cvFile) nullAnswer) uploadWorld)
  = Some (mkResponse 500 (Body.Error "Cannot read properties of null (reading 'success')")) /\
  disk (handle (uploadResume (Some cvFile) nullAnswer) uploadWorld) !! path cvFile
  = Some cvText /\
  disk (handle (uploadResume (Some cvFile) zeroScoreAnswer) uploadWorld) !! path cvFile
  = None.
Proof. vm_compute. done. Qed.

Lemma storeSkill_quiet (skillName : JsVal) : quiet (storeSkill skillName).
Proof. intros w. unfold storeSkill, try_catch, bind, create, ret. simpl. eauto. Qed.

(** X21. The success branch for every score: the answer counts the
    collaborator's skills, and carries the collaborator's score unless that
    score is 0, which comes back as [null]. *)
Lemma upload_success_reply
    (w : World) (f : MulterFile) (data : JsVal) (names : list JsVal) (s : Z) :
  truthy (js_get_opt "success" data) = true ->
  js_get_opt "score" data = JNum s ->
  js_get_opt "skills" (js_get_opt "parsedData" data) = JArr names ->
  exists resume,
    sent (handle (uploadResume (Some f) (Resolved data)) w)
    = Some (mkResponse 200
              (Body.Upload true resume (js_get_opt "message" data)
                           (JNum (Z.of_nat (List.length names))))) /\
    Resume.score resume = if (s =? 0)%Z then None else Some s.
Proof.
  unfold js_get_opt. intros Hok Hscore Hskills.
  assert (Hget : forall k, exists v, js_get k data = Ok v).
  { intros k. destruct data; simpl in *; try discriminate; eauto. }
  destruct (Hget "success") as (success & Hs). rewrite Hs in Hok.
  destruct (Hget "content") as (content & Hc).
  destruct (Hget "parsedData") as (parsedData & Hp). rewrite Hp in Hskills.
  destruct (Hget "score") as (score & Hsc). rewrite Hsc in Hscore. subst score.
  destruct (Hget "message") as (message & Hm). rewrite Hm.
  assert (bind_lift_ok : forall A B (a : A) (k : A -> M B),
            bind (lift (Ok a)) k = k a) by reflexivity.
  unfold handle, uploadResume, callPythonService, try_catch.
  unfold bind at 1. unfold bind at 1. unfold lift at 1. rewrite Hs, Hok. simpl.
  rewrite Hc, Hp, Hsc, Hm. rewrite !bind_lift_ok.
  unfold js_get_opt at 1 2. rewrite Hskills. unfold js_or. simpl.
  unfold bind at 1, create at 1. simpl. rewrite !bind_lift_ok.
  unfold bind at 1.
  match goal with
  | |- context [for_of names storeSkill ?w0] =>
      destruct (for_of_quiet names storeSkill storeSkill_quiet w0)
        as (w1 & E & Hsent & _);
      rewrite E
  end.
  simpl in Hsent.
  unfold send at 1. rewrite Hsent. simpl.
  eexists. split.
  - unfold bind, create, unlinkSync, send. simpl.
    destruct (disk w1 !! path f); simpl; reflexivity.
  - simpl. unfold or_null. rewrite truthy_Some, truthy_Z_eq.
    by destruct (s =? 0)%Z.
Qed.

(** ** Substring search and the location filter *)


Lemma append_empty (t : string) : "" ++ t = t.
Proof. reflexivity. Qed.






(** ** Entries under fresh and under present keys *)

Section MapSetFacts.
Context {V : Type}.
Implicit Types (m : JsMap V) (k : string) (v : V).

Lemma map_set_fresh m k v : map_get k m = None -> map_set k v m = (m ++ [(k, v)])%list.
Proof.
  induction m as [|[k' v'] m IH]; simpl; [done|].
  destruct (String.eqb k k'); [done|]. intros H. by rewrite IH.
Qed.

Lemma map_set_present_keys m k v v' :
  map_get k m = Some v' -> List.map fst (map_set k v m) = List.map fst m.
Proof.
  induction m as [|[k0 v0] m IH]; simpl; [done|].
  destruct (String.eqb k k0) eqn:E; simpl.
  - apply String.eqb_eq in E. by subst.
  - intros H. by rewrite IH.
Qed.

Lemma map_set_same m k v : map_get k m = Some v -> map_set k v m = m.
Proof.
  induction m as [|[k0 v0] m IH]; simpl; [done|].
  destruct (String.eqb k k0) eqn:E.
  - apply String.eqb_eq in E. intros [= ->]. by subst.
  - intros H. by rewrite IH.
Qed.

Lemma map_set_set m k v1 v2 : map_set k v2 (map_set k v1 m) = map_set k v2 m.
Proof.
  induction m as [|[k0 v0] m IH]; simpl; [by rewrite String.eqb_refl|].
  destruct (String.eqb k k0) eqn:E; simpl.
  - by rewrite String.eqb_refl.
  - by rewrite E, IH.
Qed.

Lemma map_set_entries m k v k' v' :
  In (k', v') (map_set k v m) -> (k', v') = (k, v) \/ In (k', v') m.
Proof.
  induction m as [|[k0 v0] m IH]; simpl.
  - intros [<-|[]]. by left.
  - destruct (String.eqb k k0); simpl.
    + intros [<-|H]; [by left | by right; right].
    + intros [<-|H]; [by right; left|].
      destruct (IH H); [by left | by right; right].
Qed.

Lemma map_get_None_keys m k : map_get k m = None -> ~ In k (List.map fst m).
Proof.
  induction m as [|[k0 v0] m IH]; simpl; [tauto|].
  destruct (String.eqb k k0) eqn:E; [done|].
  apply String.eqb_neq in E. intros H [?|?]; [congruence | by apply IH].
Qed.

Lemma map_get_unique m k v : NoDup (List.map fst m) -> In (k, v) m -> map_get k m = Some v.
Proof.
  induction m as [|[k0 v0] m IH]; simpl; [done|].
  intros Hnd [[= -> ->]|Hin]; [by rewrite String.eqb_refl|].
  inversion Hnd as [|? ? Hk0 Hnd']; subst.
  destruct (String.eqb k k0) eqn:E; [|by apply IH].
  apply String.eqb_eq in E. subst. exfalso. apply Hk0, list_elem_of_In.
  exact (in_map fst _ _ Hin).
Qed.

Lemma map_set_nonempty m k v : map_set k v m <> [].
Proof. destruct m as [|[k0 v0] m]; simpl; [done|]. by destruct (String.eqb k k0). Qed.

Lemma keyedById_empty (id : V -> string) : keyedById id [].
Proof. split; [constructor | intros ? ? []]. Qed.

Lemma keyedById_set (id : V -> string) m k v :
  keyedById id m -> id v = k -> keyedById id (map_set k v m).
Proof.
  intros [Hnd Hid] Hv. split.
  - destruct (map_get k m) as [v'|] eqn:E.
    + by rewrite (map_set_present_keys _ _ _ _ E).
    + rewrite (map_set_fresh _ _ _ E), map_app. simpl.
      apply NoDup_app. split; [done|]. split; [|apply NoDup_singleton].
      intros x Hx Hk. apply list_elem_of_singleton in Hk as ->.
      apply (map_get_None_keys _ _ E). by apply list_elem_of_In.
  - intros k' v' Hin. destruct (map_set_entries _ _ _ _ _ Hin) as [[= -> ->]|Hold]; [done|].
    by apply Hid.
Qed.

Lemma keyedById_indexed (id : V -> string) m : keyedById id m -> indexedById id m.
Proof.
  intros [Hnd Hid]. split.
  - unfold map_values. rewrite map_map.
    erewrite map_ext_in; [exact Hnd|]. intros [k v] Hin. simpl. by apply Hid.
  - intros v Hv. unfold map_values in Hv. apply in_map_iff in Hv as ([k v'] & <- & Hin).
    simpl. rewrite (Hid _ _ Hin). by apply map_get_unique.
Qed.
End MapSetFacts.

(** ** Invariants of the store *)

Lemma addSampleSkills_keyed uuid date k l m :
  keyedById Skill.id m -> keyedById Skill.id (addSampleSkills uuid date k l m).
Proof.
  revert k m. induction l as [|[[n lv] cat] l IH]; intros k m Hm; simpl; [done|].
  apply IH. by apply keyedById_set.
Qed.

Lemma addSampleCourses_keyed uuid date k l m :
  keyedById Course.id m -> keyedById Course.id (addSampleCourses uuid date k l m).
Proof.
  revert k m. induction l as [|c l IH]; intros k m Hm; simpl; [done|].
  apply IH. by apply keyedById_set.
Qed.

Lemma reachable_keyed (st : MemStorage) : reachable anyOp st -> storeKeyedById st.
Proof.
  induction 1 as [uuid date | st op _ IH _].
  - unfold storeKeyedById, initializeSampleData.
    cbn [users skills jobs careerPaths courses activities].
    split; [apply keyedById_set; [apply keyedById_empty | reflexivity]|].
    split; [apply addSampleSkills_keyed, keyedById_empty|].
    split; [apply keyedById_empty|]. split; [apply keyedById_empty|].
    split; [apply addSampleCourses_keyed, keyedById_empty | apply keyedById_empty].
  - destruct IH as (Hu & Hs & Hj & Hp & Hc & Ha).
    destruct op; unfold storeKeyedById; simpl;
      try (unfold updateResume; destruct (map_get id (resumes st)); simpl);
      (split; [|split; [|split; [|split; [|split]]]]);
      first [assumption | by apply keyedById_set].
Qed.

(** X2. In every store the process can reach, users, skills, jobs, career
    paths, courses and activities are indexed by their own identifiers: within
    a collection no two records share an [id], and every stored record is the
    one found under its [id]. *)
Theorem reachable_indexed_by_id (st : MemStorage) :
  reachable anyOp st ->
  indexedById User.id (users st) /\ indexedById Skill.id (skills st) /\
  indexedById Job.id (jobs st) /\ indexedById CareerPath.id (careerPaths st) /\
  indexedById Course.id (courses st) /\ indexedById Activity.id (activities st).
Proof.
  intros H. destruct (reachable_keyed st H) as (Hu & Hs & Hj & Hp & Hc & Ha).
  repeat split; by apply keyedById_indexed.
Qed.

(** The sample data right after construction, and one job. *)
Lemma reachable_indexed_by_id_witness :
  indexedById Job.id
    (jobs (perform (initializeSampleData sampleIds sampleDates)
                   (CreateJob "job-a" 1700000000100 oneJob))).
Proof.
  apply (reachable_indexed_by_id
           (perform (initializeSampleData sampleIds sampleDates)
                    (CreateJob "job-a" 1700000000100 oneJob))).
  apply reachable_step; [apply reachable_init | exact I].
Defined.







Lemma reachable_has_courses (st : MemStorage) : reachable anyOp st -> courses st <> [].
Proof.
  induction 1 as [uuid date | st op _ IH _].
  - simpl. by destruct (String.eqb (uuid 5%nat) (uuid 4%nat)).
  - destruct op; simpl; try exact IH; [|apply map_set_nonempty].
    unfold updateResume. by destruct (map_get id (resumes st)).
Qed.

(** X4. No store the process can reach is without courses (the constructor
    adds the sample courses and nothing removes one), so [getCourses] without
    a category never returns the empty list. *)
Theorem reachable_courses_nonempty (st : MemStorage) :
  reachable anyOp st -> courses st <> [] /\ getCourses st None <> [].
Proof.
  intros H. pose proof (reachable_has_courses st H) as Hc.
  split; [exact Hc|]. unfold getCourses, map_values.
  destruct (courses st); [done | discriminate].
Qed.

Lemma reachable_courses_nonempty_witness :
  getCourses (initializeSampleData sampleIds sampleDates) None <> [].
Proof.
  apply (reachable_courses_nonempty (initializeSampleData sampleIds sampleDates)).
  apply reachable_init.
Defined.

(** ** Creation under a fresh identifier *)

Lemma map_set_fresh_values {V} (m : JsMap V) (k : string) (v : V) :
  map_get k m = None -> map_values (map_set k v m) = (map_values m ++ [v])%list.
Proof. intros H. unfold map_values. by rewrite (map_set_fresh _ _ _ H), map_app. Qed.

Lemma find_snoc {A} (f : A -> bool) (l : list A) (x : A) :
  List.find f (l ++ [x])%list =
  match List.find f l with
  | Some y => Some y
  | None => if f x then Some x else None
  end.
Proof. induction l as [|y l IH]; simpl; [done|]. by destruct (f y). Qed.

Lemma filter_snoc {A} (f : A -> bool) (l : list A) (x : A) :
  List.filter f (l ++ [x])%list = (List.filter f l ++ (if f x then [x] else []))%list.
Proof. by rewrite List.filter_app. Qed.

(** X5. A skill, career path or course created under an identifier not yet
    in its collection is listed last: the owner's listing (for courses, the
    unfiltered listing) is the previous one followed by the new record, and
    the listings of every other user are unchanged. *)
Theorem create_under_fresh_id_appends :
  (forall st id now i u, map_get id (skills st) = None ->
     getSkillsByUserId (fst (createSkill st id now i)) u =
     (getSkillsByUserId st u ++
      (if String.eqb (InsertSkill.userId i) u then [snd (createSkill st id now i)]
       else []))%list) /\
  (forall st id now i u, map_get id (careerPaths st) = None ->
     getCareerPathsByUserId (fst (createCareerPath st id now i)) u =
     (getCareerPathsByUserId st u ++
      (if String.eqb (InsertCareerPath.userId i) u
       then [snd (createCareerPath st id now i)] else []))%list) /\
  (forall st id now i, map_get id (courses st) = None ->
     getCourses (fst (createCourse st id now i)) None =
     (getCourses st None ++ [snd (createCourse st id now i)])%list).
Proof.
  split; [|split].
  - intros st id now i u Hfresh. unfold getSkillsByUserId. simpl.
    by rewrite (map_set_fresh_values _ _ _ Hfresh), filter_snoc.
  - intros st id now i u Hfresh. unfold getCareerPathsByUserId. simpl.
    by rewrite (map_set_fresh_values _ _ _ Hfresh), filter_snoc.
  - intros st id now i Hfresh. unfold getCourses. simpl.
    by rewrite (map_set_fresh_values _ _ _ Hfresh).
Qed.

(** A fifth skill of the default user comes after the four sample skills. *)
Lemma create_under_fresh_id_appends_witness :
  let st := initializeSampleData sampleIds sampleDates in
  let i := InsertSkill.mk "default-user" "Rust" "beginner" "Programming" (Some true) in
  getSkillsByUserId (fst (createSkill st "skill-x" 1700000000100 i)) "default-user" =
  (getSkillsByUserId st "default-user" ++ [snd (createSkill st "skill-x" 1700000000100 i)])%list.
Proof.
  intros st i.
  exact (proj1 create_under_fresh_id_appends st "skill-x" 1700000000100 i
               "default-user" eq_refl).
Defined.

(** X6. The first resume of a user wins: after [createResume] under an
    identifier not yet in the collection, [getResumeByUserId] of a user who
    already had a resume still returns that earlier resume; only a user
    without a resume gets the new one (when it is theirs). *)
Theorem getResumeByUserId_first_wins
    (st : MemStorage) (id : string) (now : Z) (i : InsertResume.t) (u : string) :
  map_get id (resumes st) = None ->
  getResumeByUserId (fst (createResume st id now i)) u =
  match getResumeByUserId st u with
  | Some earlier => Some earlier
  | None => if String.eqb (InsertResume.userId i) u
            then Some (snd (createResume st id now i)) else None
  end.
Proof.
  intros Hfresh. unfold getResumeByUserId. simpl.
  by rewrite (map_set_fresh_values _ _ _ Hfresh), find_snoc.
Qed.

(** A second resume of the same user does not replace the first. *)
Lemma getResumeByUserId_first_wins_witness :
  let first := InsertResume.mk "default-user" "old.txt" "old" JUndefined (Some 40) in
  let second := InsertResume.mk "default-user" "new.txt" "new" JUndefined (Some 90) in
  let st := fst (createResume emptyStorage "r1" 1 first) in
  getResumeByUserId (fst (createResume st "r2" 2 second)) "default-user"
  = Some (snd (createResume emptyStorage "r1" 1 first)).
Proof.
  intros first second st.
  exact (getResumeByUserId_first_wins st "r2" 2 second "default-user" eq_refl).
Defined.

(** X7. [createUser] never rejects a user: the new user is found by [getUser]
    under its identifier and the other identifiers resolve as before; the user
    name is not checked for uniqueness, and when the identifier is fresh
    [getUserByUsername] keeps returning the earlier user of a name that was
    already taken. *)
Theorem createUser_lookups
    (st : MemStorage) (id : string) (now : Z) (i : InsertUser.t) :
  getUser (fst (createUser st id now i)) id = Some (snd (createUser st id now i)) /\
  User.username (snd (createUser st id now i)) = InsertUser.username i /\
  (forall id', id' <> id -> getUser (fst (createUser st id now i)) id' = getUser st id') /\
  (map_get id (users st) = None ->
   forall name,
     getUserByUsername (fst (createUser st id now i)) name =
     match getUserByUsername st name with
     | Some earlier => Some earlier
     | None => if String.eqb (InsertUser.username i) name
               then Some (snd (createUser st id now i)) else None
     end).
Proof.
  split; [apply map_get_set_eq|]. split; [reflexivity|].
  split; [intros id' Hne; by apply map_get_set_ne|].
  intros Hfresh name. unfold getUserByUsername. simpl.
  by rewrite (map_set_fresh_values _ _ _ Hfresh), find_snoc.
Qed.

(** A second user named alex is stored, and the lookup by name still returns
    the default user. *)
Lemma createUser_lookups_witness :
  let st := initializeSampleData sampleIds sampleDates in
  let i := InsertUser.mk "alex" "secret" None None None in
  getUserByUsername (fst (createUser st "user-2" 1700000000100 i)) "alex"
  = Some (defaultUser (sampleDates 0)).
Proof.
  intros st i.
  exact (proj2 (proj2 (proj2 (createUser_lookups st "user-2" 1700000000100 i)))
               eq_refl "alex").
Defined.

(** ** Partial updates in sequence *)

Lemma mergeResume_empty (r : Resume.t) : mergeResume r emptyPatch = r.
Proof. by destruct r. Qed.

Lemma mergeResume_merge (r : Resume.t) (p1 p2 : ResumePatch.t) :
  mergeResume (mergeResume r p1) p2 = mergeResume r (overridePatch p1 p2).
Proof.
  destruct p1 as [a1 b1 c1 d1 e1 f1 g1], p2 as [a2 b2 c2 d2 e2 f2 g2].
  unfold mergeResume, overridePatch. simpl.
  f_equal; match goal with |- default (default _ ?x) ?y = _ => by destruct x, y end.
Qed.

(** X8. Partial updates compose like their patches: updating with [p1] and
    then with [p2] gives the store and the result of one update with the patch
    [{ ...p1, ...p2 }]; and an update with the empty patch changes nothing and
    returns the stored resume. *)
Theorem updateResume_composes
    (st : MemStorage) (id : string) (p1 p2 : ResumePatch.t) :
  updateResume (fst (updateResume st id p1)) id p2
  = updateResume st id (overridePatch p1 p2) /\
  updateResume st id emptyPatch = (st, map_get id (resumes st)).
Proof.
  unfold updateResume. destruct (map_get id (resumes st)) as [r|] eqn:E; simpl.
  - rewrite map_get_set_eq, mergeResume_merge, mergeResume_empty.
    split.
    + unfold set_resumes. simpl. by rewrite map_set_set.
    + unfold set_resumes. rewrite (map_set_same _ _ _ E). f_equal. by destruct st.
  - by rewrite E.
Qed.

(** ** Loops that only add records *)

Lemma changesOnly_refl (c : Collection) (w : World) : changesOnly c w w.
Proof. repeat split; try done. by intros []. Qed.

Lemma changesOnly_trans (c : Collection) (w1 w2 w3 : World) :
  changesOnly c w1 w2 -> changesOnly c w2 w3 -> changesOnly c w1 w3.
Proof.
  intros (Hs1 & Hd1 & Hu1 & Ht1 & Hc1) (Hs2 & Hd2 & Hu2 & Ht2 & Hc2).
  repeat split; try congruence.
  intros c' Hne. specialize (Hc1 c' Hne). specialize (Hc2 c' Hne).
  destruct c'; simpl in *; congruence.
Qed.

Lemma for_of_runsQuietly {A} (R : World -> World -> Prop) (l : list A) (f : A -> M unit) :
  (forall w, R w w) -> (forall w1 w2 w3, R w1 w2 -> R w2 w3 -> R w1 w3) ->
  (forall x, runsQuietly R (f x)) -> runsQuietly R (for_of l f).
Proof.
  intros Hrefl Htrans Hf. induction l as [|x l IH]; intros w; simpl.
  - unfold ret. eauto.
  - unfold bind. destruct (Hf x w) as (w1 & -> & H1).
    destruct (IH w1) as (w2 & -> & H2). eauto.
Qed.

Ltac others_same := intros [] ?; simpl; done.

Lemma storeSkill_changesOnly (skillName : JsVal) :
  runsQuietly (changesOnly Skills) (storeSkill skillName).
Proof.
  intros w. unfold storeSkill, try_catch, bind, create, ret. simpl.
  eexists. split; [reflexivity|]. repeat split; others_same.
Qed.

Lemma storeJob_changesOnly (jobData : JsVal) :
  runsQuietly (changesOnly Jobs) (storeJob jobData).
Proof.
  intros w. unfold storeJob, try_catch, bind, lift, create, ret.
  destruct jobData; simpl; (eexists; split; [reflexivity|]);
    first [apply changesOnly_refl | repeat split; others_same].
Qed.

Lemma storePath_changesOnly (pathData : JsVal) :
  runsQuietly (changesOnly CareerPaths) (storePath pathData).
Proof.
  intros w. unfold storePath, try_catch, bind, lift, create, ret.
  destruct pathData; simpl; (eexists; split; [reflexivity|]);
    first [apply changesOnly_refl | repeat split; others_same].
Qed.

Lemma storeCourse_changesOnly (courseData : InsertCourse.t) :
  runsQuietly (changesOnly Courses) (storeCourse courseData).
Proof.
  intros w. unfold storeCourse, try_catch, bind, create, ret. simpl.
  eexists. split; [reflexivity|]. repeat split; others_same.
Qed.

Lemma for_of_changesOnly {A} (c : Collection) (l : list A) (f : A -> M unit) :
  (forall x, runsQuietly (changesOnly c) (f x)) -> runsQuietly (changesOnly c) (for_of l f).
Proof.
  apply for_of_runsQuietly; [apply changesOnly_refl | apply changesOnly_trans].
Qed.

(** ** Dashboard statistics for every store *)

(** X9. [GET /api/dashboard/stats] always answers 200 and changes neither the
    store nor the files.  [skillMatches] is the number of the default user's
    skills; [jobRecommendations] is 3 for a store without jobs and otherwise
    the number of stored jobs, also when that is 1 or 2; [resumeScore] is 0
    without a resume of the default user and otherwise the score of the first
    one stored, [null] read as 0. *)
Theorem dashboardStats_always_answers (w : World) :
  exists resumeScore skillMatches jobRecommendations,
    sent (handle dashboardStats w)
    = Some (mkResponse 200 (Body.Stats resumeScore skillMatches jobRecommendations)) /\
    skillMatches = Z.of_nat (List.length (getSkillsByUserId (storage w) defaultUserId)) /\
    jobRecommendations =
      (if Nat.eqb (List.length (jobs (storage w))) 0 then 3
       else Z.of_nat (List.length (jobs (storage w)))) /\
    resumeScore =
      match getResumeByUserId (storage w) defaultUserId with
      | Some r => default 0 (Resume.score r)
      | None => 0
      end /\
    storage (handle dashboardStats w) = storage w /\
    disk (handle dashboardStats w) = disk w.
Proof.
  do 3 eexists. split; [apply dashboardStats_reply|].
  split; [reflexivity|]. split; [|by repeat split].
  assert (Hlen : List.length (getJobs (storage w) None)
                 = List.length (jobs (storage w))).
  { unfold getJobs. rewrite (Permutation_length (js_sort_perm _ _)).
    unfold map_values. apply length_map. }
  rewrite <- Hlen. by destruct (getJobs (storage w) None).
Qed.

(** ** The success branch of the upload *)

(** An answer with score 82 and three skills. *)
Lemma upload_success_reply_witness :
  exists resume,
    sent (handle (uploadResume (Some cvFile) scoredAnswer) uploadWorld)
    = Some (mkResponse 200
              (Body.Upload true resume (JStr "Resume processed successfully") (JNum 3))) /\
    Resume.score resume = Some 82.
Proof.
  exact (upload_success_reply uploadWorld cvFile
           (JObj [("success", JBool true); ("content", JStr cvText);
                  ("parsedData", JObj [("skills", jsStrings ["Python"; "SQL"; "Docker"])]);
                  ("score", JNum 82); ("message", JStr "Resume processed successfully")])
           [JStr "Python"; JStr "SQL"; JStr "Docker"] 82 eq_refl eq_refl eq_refl).
Defined.

(** ** Outcomes of an upload *)

Lemma uploadResume_run (f : MulterFile) (axios : AxiosOutcome) (w : World) :
  uploadFrame f w (handle (uploadResume (Some f) axios) w) /\
  (uploadThrew f w (handle (uploadResume (Some f) axios) w) \/
   uploadCompleted f w (handle (uploadResume (Some f) axios) w)).
Proof.
  cut (exists w', handle (uploadResume (Some f) axios) w = w' /\
                  uploadFrame f w w' /\ (uploadThrew f w w' \/ uploadCompleted f w w')).
  { by intros (w' & -> & H). }
  assert (bind_lift_ok : forall A B (a : A) (k : A -> M B),
            bind (lift (Ok a)) k = k a) by reflexivity.
  unfold handle, uploadResume, try_catch.
  set (resp := callPythonService axios). clearbody resp.
  unfold bind at 1. unfold bind at 1. unfold lift at 1.
  destruct (js_get "success" resp) as [success|e] eqn:Hs.
  2: { simpl. eexists. split; [reflexivity|]. split; [by repeat split|].
       left. by eexists. }
  assert (Hget : forall k, exists v, js_get k resp = Ok v).
  { intros k. destruct resp; simpl in *; try discriminate; eauto. }
  destruct (truthy success) eqn:Ht; simpl.
  - destruct (Hget "content") as (content & ->).
    destruct (Hget "parsedData") as (parsedData & ->).
    destruct (Hget "score") as (score & ->).
    destruct (Hget "message") as (message & ->).
    rewrite !bind_lift_ok. unfold bind at 1, create at 1. simpl.
    set (extracted := js_or (js_get_opt "skills" parsedData) (JArr [])).
    clearbody extracted.
    set (w0 := mkWorld _ _ _ _ _ _ _).
    assert (Hloop : forall l, exists w1,
              for_of l storeSkill w0 = (Ok tt, w1) /\ changesOnly Skills w0 w1).
    { intros l. apply (for_of_changesOnly Skills l storeSkill storeSkill_changesOnly). }
    unfold bind at 1.
    destruct extracted as [| | | |s|items|]; simpl;
      try (eexists; split; [reflexivity|]; split; [by repeat split|];
           left; by eexists).
    all: match goal with
         | |- context [for_of ?l storeSkill] =>
             destruct (Hloop l) as (w1 & E & Hsent & Hdisk & _ & _ & Hsame)
         end.
    all: unfold bind at 1; rewrite E; rewrite !bind_lift_ok.
    all: unfold send at 1; rewrite Hsent; simpl.
    all: unfold bind, create, unlinkSync, send; simpl.
    all: rewrite Hdisk; simpl.
    all: pose proof (Hsame Users ltac:(done)) as Hu;
         pose proof (Hsame Resumes ltac:(done)) as Hr;
         pose proof (Hsame Jobs ltac:(done)) as Hj;
         pose proof (Hsame CareerPaths ltac:(done)) as Hp;
         pose proof (Hsame Courses ltac:(done)) as Hc; simpl in Hu, Hr, Hj, Hp, Hc.
    all: destruct (disk w !! path f) as [text|] eqn:Hfile; simpl.
    all: eexists; (split; [reflexivity|]); simpl.
    all: split;
           [ unfold uploadFrame; simpl; repeat (split; [assumption|]);
             intros q Hq; first [by apply lookup_delete_ne | reflexivity]
           | right; unfold uploadCompleted; simpl; do 3 eexists;
             repeat (split; [reflexivity|]); split; [exact Hr|];
             split; [first [apply lookup_delete_eq | exact Hfile]|];
             eexists; split; [apply map_set_values_new | by repeat split] ].
  - unfold bind, readFile, create, lift, send, unlinkSync. simpl.
    destruct (disk w !! path f) as [text|] eqn:Hfile; simpl.
    + rewrite Hfile. simpl. eexists. split; [reflexivity|]. split.
      * unfold uploadFrame. simpl. repeat (split; [reflexivity|]).
        intros q Hq. by apply lookup_delete_ne.
      * right. unfold uploadCompleted. simpl. do 3 eexists.
        repeat (split; [reflexivity|]). split; [apply lookup_delete_eq|].
        eexists. split; [apply map_set_values_new | by repeat split].
    + eexists. split; [reflexivity|]. split; [by repeat split|].
      left. by eexists.
Qed.

(** X10. An upload without a file is answered 400 and changes neither the
    store nor the files.  An upload with a file is answered 500 or 200, never
    400.  With 500 no file was deleted and no skill or activity was added.
    With 200 one resume of the default user was stored under the drawn
    identifier, the temp file is gone, and a completed [resume_upload] activity
    of the default user that names the file is stored. *)
Theorem uploadResume_outcomes
    (file : option MulterFile) (axios : AxiosOutcome) (w : World) :
  match file with
  | None =>
      sent (handle (uploadResume None axios) w)
      = Some (mkResponse 400 (Body.Error "No file uploaded")) /\
      storage (handle (uploadResume None axios) w) = storage w /\
      disk (handle (uploadResume None axios) w) = disk w
  | Some f =>
      uploadThrew f w (handle (uploadResume (Some f) axios) w) \/
      uploadCompleted f w (handle (uploadResume (Some f) axios) w)
  end.
Proof.
  destruct file as [f|]; [apply uploadResume_run | by repeat split].
Qed.

(** X11. Whatever the collaborator does, an upload leaves users, jobs, career
    paths and courses as they were and touches no file other than the uploaded
    temp file. *)
Theorem uploadResume_frame (f : MulterFile) (axios : AxiosOutcome) (w : World) :
  uploadFrame f w (handle (uploadResume (Some f) axios) w).
Proof. apply uploadResume_run. Qed.

(** X12. After an upload answered 200 under a fresh resume identifier,
    [GET /api/resume] answers 200 with the resume the default user already
    had, if any; only a first upload is answered with the uploaded resume.
    A later upload never replaces the resume that is fetched. *)
Theorem upload_then_fetch_resume
    (f : MulterFile) (axios : AxiosOutcome) (w : World)
    (resume : Resume.t) (message count : JsVal) :
  sent (handle (uploadResume (Some f) axios) w)
  = Some (mkResponse 200 (Body.Upload true resume message count)) ->
  map_get (randomUUID w (uuids w)) (resumes (storage w)) = None ->
  answer getApiResume (handle (uploadResume (Some f) axios) w)
  = Ok (Json 200 (match getResumeByUserId (storage w) defaultUserId with
                  | Some earlier => earlier
                  | None => resume
                  end)).
Proof.
  intros Hsent Hfresh.
  destruct (proj2 (uploadResume_run f axios w)) as [(m & E & _)|Hdone].
  { rewrite E in Hsent. discriminate. }
  destruct Hdone as (r & m & c & E & _ & Hu & Hres & _).
  rewrite E in Hsent. injection Hsent as -> -> ->.
  unfold answer, getApiResume, try_catch, bind, query, ret, fresh. simpl.
  unfold getResumeByUserId. rewrite Hres, (map_set_fresh_values _ _ _ Hfresh), find_snoc.
  destruct (List.find _ (map_values (resumes (storage w)))); [done|].
  rewrite Hu. simpl. done.
Qed.

(** A second upload: the fetch still answers with the first resume. *)
Lemma upload_then_fetch_resume_witness :
  answer getApiResume (handle (uploadResume (Some cvFile) scoredAnswer) secondUploadWorld)
  = Ok (Json 200
          (Resume.mk (sampleIds 6) "default-user" "cv.txt" cvText
             (JObj [("name", JStr "Jane Doe"); ("skills", jsStrings ["Python"; "SQL"])])
             None (Some (sampleDates 7)))).
Proof.
  refine (eq_trans
            (upload_then_fetch_resume cvFile scoredAnswer secondUploadWorld
               (Resume.mk (sampleIds 10) "default-user" "cv.txt" cvText
                  (JObj [("skills", jsStrings ["Python"; "SQL"; "Docker"])])
                  (Some 82) (Some (sampleDates 11)))
               (JStr "Resume processed successfully") (JNum 3) _ _) _);
    vm_compute; reflexivity.
Defined.

(** ** Posting and listing activities *)

(** X13. After [POST /api/activities] accepted a body, [GET /api/activities]
    answers 200 with a list that contains the activity just created; the list
    holds only activities of the default user, newest first, and listing
    changes nothing. *)
Theorem post_then_list_activities (body : JsVal) (w : World) (data : InsertActivity.t) :
  insertActivitySchema_safeParse body = Some data ->
  exists created listed,
    sent (handle (postActivities body) w) = Some (mkResponse 200 (Body.Created created)) /\
    answer getApiActivities (handle (postActivities body) w) = Ok (Json 200 listed) /\
    In created listed /\
    descending createdAtTime listed /\
    (forall a, In a listed -> Activity.userId a = defaultUserId) /\
    storage (after getApiActivities (handle (postActivities body) w))
    = storage (handle (postActivities body) w).
Proof.
  intros Hparse.
  eassert (Hrun : handle (postActivities body) w = _).
  { unfold handle, postActivities, try_catch, bind, create, send, fresh.
    rewrite Hparse. simpl. reflexivity. }
  rewrite Hrun. do 2 eexists. split; [reflexivity|].
  unfold answer, after, getApiActivities, try_catch, bind, query, ret, fresh. simpl.
  split; [reflexivity|]. split; [|split; [|split; [|reflexivity]]].
  - apply getActivitiesByUserId_In. simpl. split; [apply map_set_values_new | done].
  - apply (js_sort_descending _ _ byCreatedAt_key).
  - intros a Ha. by apply getActivitiesByUserId_In in Ha as [_ ?].
Qed.

Lemma post_then_list_activities_witness :
  exists created listed,
    answer getApiActivities
      (handle (postActivities
                 (JObj [("userId", JStr "mallory"); ("type", JStr "note");
                        ("description", JStr "hello"); ("status", JStr "new")]))
              sampleWorld)
    = Ok (Json 200 listed) /\ In created listed /\
    Activity.description created = "hello".
Proof.
  destruct (post_then_list_activities
              (JObj [("userId", JStr "mallory"); ("type", JStr "note");
                     ("description", JStr "hello"); ("status", JStr "new")])
              sampleWorld (InsertActivity.mk "mallory" "note" "hello" "new") eq_refl)
    as (created & listed & Hsent & Hlist & Hin & _).
  exists created, listed. split; [exact Hlist|]. split; [exact Hin|].
  vm_compute in Hsent. by injection Hsent as <-.
Defined.

(** ** What the job listing stores *)

Lemma map_set_length {V} (m : JsMap V) (k : string) (v : V) :
  (List.length (map_set k v m) <= S (List.length m))%nat.
Proof.
  induction m as [|[k0 v0] m IH]; simpl; [lia|].
  destruct (String.eqb k k0); simpl; lia.
Qed.

Lemma storeJob_adds_one (jobData : JsVal) (w : World) :
  exists w', storeJob jobData w = (Ok tt, w') /\ changesOnly Jobs w w' /\
    (List.length (jobs (storage w')) <= S (List.length (jobs (storage w))))%nat.
Proof.
  unfold storeJob, try_catch, bind, lift, create, ret.
  destruct jobData; simpl; (eexists; split; [reflexivity|]); simpl;
    (split; [first [apply changesOnly_refl | repeat split; others_same]|]);
    first [apply map_set_length | lia].
Qed.

Lemma for_of_storeJob_adds (l : list JsVal) (w : World) :
  exists w', for_of l storeJob w = (Ok tt, w') /\ changesOnly Jobs w w' /\
    (List.length (jobs (storage w'))
     <= List.length (jobs (storage w)) + List.length l)%nat.
Proof.
  revert w. induction l as [|x l IH]; intros w; simpl.
  - unfold ret. eexists. split; [reflexivity|]. split; [apply changesOnly_refl | lia].
  - unfold bind. destruct (storeJob_adds_one x w) as (w1 & -> & H1 & L1).
    destruct (IH w1) as (w2 & -> & H2 & L2).
    eexists. split; [reflexivity|].
    split; [by eapply changesOnly_trans | lia].
Qed.

Lemma chars_length (s : string) : List.length (chars s) = String.length s.
Proof. induction s as [|c s IH]; simpl; [done | by rewrite IH]. Qed.

Lemma substring_length_le (n m : nat) (s : string) :
  (String.length (String.substring n m s) <= m)%nat.
Proof.
  revert n m. induction s as [|c s IH]; intros n m.
  - destruct n, m; simpl; lia.
  - destruct n as [|n]; [destruct m as [|m]; simpl; [lia|]|]; simpl.
    + specialize (IH 0%nat m). lia.
    + apply IH.
Qed.

(** X14. One [GET /api/jobs] adds at most ten jobs to the store, whatever the
    collaborator reports, and changes no other collection and no file; when
    the collaborator call failed it leaves the whole store as it was. *)
Theorem getApiJobs_store_effect (axios : AxiosOutcome) (w : World) :
  (List.length (jobs (storage (handle (getApiJobs axios) w)))
   <= List.length (jobs (storage w)) + 10)%nat /\
  (forall c, c <> Jobs ->
     sameCollection c (storage w) (storage (handle (getApiJobs axios) w))) /\
  disk (handle (getApiJobs axios) w) = disk w /\
  (collaboratorFailed axios = true -> storage (handle (getApiJobs axios) w) = storage w).
Proof.
  cut (exists w', handle (getApiJobs axios) w = w' /\
         (List.length (jobs (storage w')) <= List.length (jobs (storage w)) + 10)%nat /\
         (forall c, c <> Jobs -> sameCollection c (storage w) (storage w')) /\
         disk w' = disk w /\
         (collaboratorFailed axios = true -> storage w' = storage w)).
  { by intros (w' & -> & H). }
  assert (bind_lift_ok : forall A B (a : A) (k : A -> M B),
            bind (lift (Ok a)) k = k a) by reflexivity.
  unfold handle, getApiJobs, collaboratorFailed, try_catch.
  set (resp := callPythonService axios). clearbody resp.
  unfold bind at 1, query at 1. unfold bind at 1. unfold lift at 1.
  destruct (js_get "success" resp) as [success|e] eqn:Hs.
  2: { simpl. eexists. split; [reflexivity|]. simpl.
       split; [lia|]. split; [by intros []|]. done. }
  destruct (truthy success) eqn:Ht; simpl.
  2: { eexists. split; [reflexivity|]. simpl.
       split; [lia|]. split; [by intros []|]. done. }
  assert (Hget : forall k, exists v, js_get k resp = Ok v).
  { intros k. destruct resp; simpl in *; try discriminate; eauto. }
  destruct (Hget "jobs") as (jobs & ->).
  destruct (Hget "source") as (source & ->).
  destruct (Hget "message") as (message & ->).
  rewrite !bind_lift_ok.
  destruct jobs as [| | | |s|items|]; simpl;
    try (eexists; split; [reflexivity|]; simpl;
         split; [lia|]; split; [by intros []|]; done).
  all: rewrite bind_lift_ok; unfold js_iterate; rewrite bind_lift_ok.
  all: match goal with
       | |- context [for_of ?l storeJob] =>
           destruct (for_of_storeJob_adds l (fresh w))
             as (w1 & E & (Hsent & Hdisk & _ & _ & Hsame) & Hlen)
       end.
  all: unfold bind at 1; rewrite E; unfold send; rewrite Hsent; simpl.
  all: eexists; (split; [reflexivity|]); simpl.
  all: split; [|split; [exact Hsame|]; split; [exact Hdisk | done]].
  - rewrite chars_length in Hlen.
    pose proof (substring_length_le 0 10 s). simpl in Hlen. lia.
  - pose proof (firstn_le_length 10 items). simpl in Hlen.
    assert (List.length (firstn 10 items) <= 10)%nat by apply firstn_le_length.
    lia.
Qed.

(** ** The course listing over HTTP *)

Lemma nonempty_length_test {A} (l : list A) :
  l <> [] -> (Z.of_nat (List.length l) =? 0)%Z = false.
Proof. by destruct l. Qed.

Lemma map_values_nonempty {V} (m : JsMap V) : m <> [] -> map_values m <> [].
Proof. by destruct m. Qed.

Lemma getApiCourses_stored (w : World) :
  courses (storage w) <> [] ->
  getApiCourses (fresh w) = (Ok (Json 200 (map_values (courses (storage w)))), fresh w).
Proof.
  intros Hne. unfold getApiCourses, try_catch, bind, query, ret, getCourses. simpl.
  by rewrite (nonempty_length_test _ (map_values_nonempty _ Hne)).
Qed.

Lemma getApiCourses_seeds (w : World) :
  courses (storage w) = [] ->
  exists w', getApiCourses (fresh w) = (Ok (Json 200 (map_values (courses (storage w')))), w') /\
             changesOnly Courses (fresh w) w' /\ courses (storage w') <> [].
Proof.
  intros Hempty. unfold getApiCourses, try_catch. unfold bind at 1, query at 1.
  unfold getCourses at 1. simpl. rewrite Hempty. simpl.
  match goal with |- exists w', (_, ?w1) = _ /\ _ => exists w1 end.
  split; [reflexivity|]. simpl.
  split; [repeat split; others_same | apply map_set_nonempty].
Qed.

(** X15. [GET /api/courses] never answers with an empty list: it answers 200
    with the stored courses, after adding the fallback courses when there was
    none.  The answer is the store's course list afterwards; a second request
    gets the same answer and changes nothing; no other collection changes; and
    in a store that already has courses (every store the process can reach)
    the request changes nothing at all, so the fallback courses are never
    added. *)
Theorem getApiCourses_settles (w : World) :
  exists listed,
    answer getApiCourses w = Ok (Json 200 listed) /\
    listed <> [] /\
    listed = getCourses (storage (after getApiCourses w)) None /\
    answer getApiCourses (after getApiCourses w) = Ok (Json 200 listed) /\
    storage (after getApiCourses (after getApiCourses w))
    = storage (after getApiCourses w) /\
    (forall c, c <> Courses ->
       sameCollection c (storage w) (storage (after getApiCourses w))) /\
    (courses (storage w) <> [] -> storage (after getApiCourses w) = storage w) /\
    (reachable anyOp (storage w) -> storage (after getApiCourses w) = storage w).
Proof.
  unfold answer, after.
  assert (Hstored : courses (storage w) <> [] ->
            exists listed,
              (getApiCourses (fresh w)).1 = Ok (Json 200 listed) /\
              listed <> [] /\
              listed = getCourses (storage (getApiCourses (fresh w)).2) None /\
              (getApiCourses (fresh (getApiCourses (fresh w)).2)).1 = Ok (Json 200 listed) /\
              storage (getApiCourses (fresh (getApiCourses (fresh w)).2)).2
              = storage (getApiCourses (fresh w)).2 /\
              (forall c, c <> Courses ->
                 sameCollection c (storage w) (storage (getApiCourses (fresh w)).2)) /\
              storage (getApiCourses (fresh w)).2 = storage w).
  { intros Hne. rewrite (getApiCourses_stored w Hne). simpl.
    rewrite (getApiCourses_stored (fresh w) Hne). simpl.
    eexists. split; [reflexivity|]. split; [by apply map_values_nonempty|].
    repeat split. by intros []. }
  destruct (courses (storage w)) as [|e m] eqn:Hc.
  - destruct (getApiCourses_seeds w Hc) as (w1 & E & (_ & _ & _ & _ & Hsame) & N1).
    rewrite E. simpl. rewrite (getApiCourses_stored w1 N1). simpl.
    eexists. split; [reflexivity|]. split; [by apply map_values_nonempty|].
    split; [reflexivity|]. split; [reflexivity|]. split; [reflexivity|].
    split; [exact Hsame|]. split; [done|].
    intros Hreach. apply reachable_has_courses in Hreach. congruence.
  - destruct Hstored as (listed & H1 & H2 & H3 & H4 & H5 & H6 & H7); [done|].
    exists listed. repeat (split; [assumption|]). by split.
Qed.

(** X16. On a store without courses, with three distinct identifiers drawn,
    [GET /api/courses] answers 200 with exactly the three fallback courses in
    their order, each stored as [createCourse] makes it (free, without image). *)
Theorem getApiCourses_seeds_fallback (w : World) :
  courses (storage w) = [] ->
  NoDup [randomUUID w (uuids w); randomUUID w (S (uuids w)); randomUUID w (S (S (uuids w)))] ->
  answer getApiCourses w =
  Ok (Json 200
        (List.map (fun '(n, c) => courseOf (randomUUID w (uuids w + n))
                                           (Date_now w (dates w + n)) c)
                  (combine [0; 1; 2]%nat fallbackCourses))).
Proof.
  intros Hempty Hnd.
  apply NoDup_cons in Hnd as [H1 Hnd]. apply NoDup_cons in Hnd as [H2 _].
  assert (N12 : String.eqb (randomUUID w (S (uuids w))) (randomUUID w (uuids w)) = false).
  { apply String.eqb_neq. intros E. apply H1. rewrite E. by left. }
  assert (N13 : String.eqb (randomUUID w (S (S (uuids w)))) (randomUUID w (uuids w)) = false).
  { apply String.eqb_neq. intros E. apply H1. rewrite E. right. by left. }
  assert (N23 : String.eqb (randomUUID w (S (S (uuids w)))) (randomUUID w (S (uuids w))) = false).
  { apply String.eqb_neq. intros E. apply H2. rewrite E. by left. }
  unfold answer, getApiCourses, try_catch. unfold bind at 1, query at 1.
  unfold getCourses at 1. simpl. rewrite Hempty. simpl.
  rewrite Hempty. simpl. rewrite N12. simpl. rewrite N13, N23. simpl.
  rewrite !Nat.add_0_r, !Nat.add_1_r, !(Nat.add_comm _ 2). reflexivity.
Qed.

Lemma getApiCourses_seeds_fallback_witness :
  exists listed,
    answer getApiCourses emptyWorld = Ok (Json 200 listed) /\
    List.map Course.title listed = List.map InsertCourse.title fallbackCourses.
Proof.
  eexists. split.
  - apply (getApiCourses_seeds_fallback emptyWorld eq_refl).
    apply (bool_decide_unpack _). vm_compute. reflexivity.
  - reflexivity.
Defined.

(** ** Career paths over HTTP *)



(** X18. [GET /api/career-paths] answers 200 with the two fallback paths,
    computed from the default user's skill names, when the collaborator call
    failed; it answers 500 when the payload is [null] or reports success
    without iterable [paths] (the job listing answers 200 with its fallback
    there); otherwise it answers 200 with the reported [paths].  When the call
    failed or the handler threw, the store is as before; in every case only
    the career paths can change. *)
Theorem getApiCareerPaths_reply (axios : AxiosOutcome) (w : World) :
  answer (getApiCareerPaths axios) w =
  Ok (if collaboratorFailed axios
      then Json 200 (fallbackPaths
                       (List.map Skill.name (getSkillsByUserId (storage w) defaultUserId)))
      else if pathsHandlerThrows axios
           then Failure 500 "Failed to fetch career paths"
           else Json 200 (js_get_opt "paths" (callPythonService axios))) /\
  (collaboratorFailed axios = true \/ pathsHandlerThrows axios = true ->
   storage (after (getApiCareerPaths axios) w) = storage w) /\
  (forall c, c <> CareerPaths ->
     sameCollection c (storage w) (storage (after (getApiCareerPaths axios) w))) /\
  disk (after (getApiCareerPaths axios) w) = disk w.
Proof.
  cut (exists r w', getApiCareerPaths axios (fresh w) = (r, w') /\
         r = Ok (if collaboratorFailed axios
                 then Json 200 (fallbackPaths
                        (List.map Skill.name (getSkillsByUserId (storage w) defaultUserId)))
                 else if pathsHandlerThrows axios
                      then Failure 500 "Failed to fetch career paths"
                      else Json 200 (js_get_opt "paths" (callPythonService axios))) /\
         (collaboratorFailed axios = true \/ pathsHandlerThrows axios = true ->
          storage w' = storage w) /\
         (forall c, c <> CareerPaths -> sameCollection c (storage w) (storage w')) /\
         disk w' = disk w).
  { unfold answer, after. by intros (r & w' & -> & H). }
  assert (bind_lift_ok : forall A B (a : A) (k : A -> M B),
            bind (lift (Ok a)) k = k a) by reflexivity.
  unfold getApiCareerPaths, collaboratorFailed, pathsHandlerThrows, js_get_opt, try_catch.
  set (resp := callPythonService axios). clearbody resp.
  unfold bind at 1, query at 1. unfold bind at 1. unfold lift at 1.
  destruct (js_get "success" resp) as [success|e] eqn:Hs.
  2: { simpl. do 2 eexists. split; [reflexivity|]. simpl.
       split; [done|]. split; [done|]. split; [by intros []|done]. }
  destruct (truthy success) eqn:Ht; simpl.
  2: { do 2 eexists. split; [reflexivity|]. simpl.
       split; [done|]. split; [done|]. split; [by intros []|done]. }
  assert (Hget : forall k, exists v, js_get k resp = Ok v).
  { intros k. destruct resp; simpl in *; try discriminate; eauto. }
  destruct (Hget "paths") as (paths & ->). rewrite bind_lift_ok.
  destruct paths as [| | | |s|items|]; simpl;
    try (do 2 eexists; split; [reflexivity|]; simpl;
         split; [done|]; split; [done|]; split; [by intros []|done]).
  all: rewrite bind_lift_ok.
  all: match goal with
       | |- context [for_of ?l storePath] =>
           destruct (for_of_changesOnly CareerPaths l storePath storePath_changesOnly
                       (fresh w))
             as (w1 & E & (Hsent & Hdisk & _ & _ & Hsame))
       end.
  all: unfold bind at 1; rewrite E; unfold ret.
  all: do 2 eexists; (split; [reflexivity|]).
  all: split; [done|]; split; [by intros [|]|]; split; [exact Hsame | exact Hdisk].
Qed.

(** ** Skills after an upload *)







(** ** Bodies of [POST /api/activities] *)

(** X20. [POST /api/activities] answers 400 and changes nothing when the body
    is not an object with string fields [userId], [type], [description] and
    [status]; a body without [userId] is rejected although the handler
    overwrites that field.  Otherwise it answers 200, and the activity's [id]
    and [createdAt] are the identifier and the instant the server draws,
    whatever else the body carries (keys such as [id] and [createdAt] are
    dropped).  It never answers 500 and never touches a file. *)
Theorem postActivities_validates (body : JsVal) (w : World) :
  match insertActivitySchema_safeParse body with
  | None =>
      sent (handle (postActivities body) w)
      = Some (mkResponse 400 (Body.Error "Invalid activity data")) /\
      storage (handle (postActivities body) w) = storage w
  | Some data =>
      sent (handle (postActivities body) w)
      = Some (mkResponse 200
                (Body.Created
                   (Activity.mk (randomUUID w (uuids w)) defaultUserId
                      (InsertActivity.type data) (InsertActivity.description data)
                      (InsertActivity.status data) (Some (Date_now w (dates w))))))
  end /\
  disk (handle (postActivities body) w) = disk w /\
  (forall extra,
     insertActivitySchema_safeParse
       (JObj [("userId", JStr (InsertActivity.userId extra));
              ("type", JStr (InsertActivity.type extra));
              ("description", JStr (InsertActivity.description extra));
              ("status", JStr (InsertActivity.status extra));
              ("id", JStr "chosen-by-client"); ("createdAt", JNum 0)])
     = Some extra) /\
  (forall props, assoc "userId" props = None ->
     insertActivitySchema_safeParse (JObj props) = None).
Proof.
  unfold handle, postActivities, try_catch, bind, create, send, fresh.
  split; [|split; [|split; [by intros []|]]].
  - by destruct (insertActivitySchema_safeParse body) as [data|].
  - by destruct (insertActivitySchema_safeParse body) as [data|].
  - intros props H. simpl. by rewrite H.
Qed.
